(** * bubop.fs: path validation and filename sanitisation

    A shallow embedding of [src/bubop/fs.py] together with the parts of the
    Python runtime it calls ([str] methods, [re.sub], [pathlib] in its POSIX
    flavour), and the properties of [valid_path] and [get_valid_filename]. *)

From Stdlib Require Import String Ascii NArith List Lia DecimalString.
From stdpp Require Import base option list numbers countable finite gmap.

Local Open Scope N_scope.

(** ** Python strings

    A Python [str] is a sequence of Unicode code points; [len] counts code
    points. *)

Definition pystr : Type := list N.

(** A literal of the source, character by character. *)
Definition py (s : string) : pystr := map N_of_ascii (list_ascii_of_string s).

Definition ch (a : ascii) : N := N_of_ascii a.

Arguments ch : simpl never.

(** [str.isspace] on one code point: the table of [_PyUnicode_IsWhitespace]
    (bidirectional type WS, B or S, or category Zs). *)
Definition isspace (c : N) : bool :=
  ((0x09 <=? c) && (c <=? 0x0D)) || ((0x1C <=? c) && (c <=? 0x20))
  || (c =? 0x85) || (c =? 0xA0) || (c =? 0x1680)
  || ((0x2000 <=? c) && (c <=? 0x200A))
  || (c =? 0x2028) || (c =? 0x2029) || (c =? 0x202F) || (c =? 0x205F)
  || (c =? 0x3000).

(** [str.isalnum] on one ASCII code point. *)
Definition ascii_isalnum (c : N) : bool :=
  ((0x30 <=? c) && (c <=? 0x39)) || ((0x41 <=? c) && (c <=? 0x5A))
  || ((0x61 <=? c) && (c <=? 0x7A)).

(** A code point that CPython stores in one byte (Latin-1), which includes
    every code point that UTF-8 encodes in one byte. *)
Definition single_byte (c : N) : bool := c <? 0x100.

(** [str.lstrip()], [str.rstrip()] and [str.strip()] without argument. *)
Fixpoint lstrip (s : pystr) : pystr :=
  match s with
  | [] => []
  | c :: s' => if isspace c then lstrip s' else s
  end.

Definition rstrip (s : pystr) : pystr := rev (lstrip (rev s)).

Definition strip (s : pystr) : pystr := rstrip (lstrip s).

(** [s.startswith(prefix)]. *)
Fixpoint startswith (s prefix : pystr) : bool :=
  match prefix, s with
  | [], _ => true
  | p :: prefix', c :: s' => (c =? p) && startswith s' prefix'
  | _ :: _, [] => false
  end.

(** [str.replace(old, new)]: every occurrence of [old], found from the left
    and without overlap, becomes [new].  [skip] counts the characters of an
    occurrence that are still to be passed over. *)
Fixpoint replace_from (old new : pystr) (skip : nat) (s : pystr) : pystr :=
  match s with
  | [] => []
  | c :: s' =>
      match skip with
      | S n => replace_from old new n s'
      | O =>
          if startswith s old
          then new ++ replace_from old new (pred (List.length old)) s'
          else c :: replace_from old new O s'
      end
  end.

Definition replace (s old new : pystr) : pystr :=
  match old with
  | [] => new ++ flat_map (fun c => c :: new) s
  | _ :: _ => replace_from old new O s
  end.

(** The [str()] operator, for the values passed to this module. *)
Class Str (A : Type) := str : A -> pystr.

#[global] Instance Str_pystr : Str pystr := fun s => s.

#[global] Instance Str_N : Str N :=
  fun n => py (NilZero.string_of_uint (N.to_uint n)).

(** ** pathlib: pure POSIX paths

    [Path(s)] parses its argument into a root and a list of components; this
    is the structured path the functions below pass around. *)

Record PosixPath : Type := mkPath {
  path_root : pystr;        (* [_root]: empty, one slash or two slashes *)
  path_tail : list pystr    (* the components after the root *)
}.

#[global] Instance pystr_eq_dec : EqDecision pystr := _.

#[global] Instance PosixPath_eq_dec : EqDecision PosixPath.
Proof. solve_decision. Defined.

(** [s.split("/")], on the characters after the root. *)
Fixpoint split_sep (cur : pystr) (s : pystr) : list pystr :=
  match s with
  | [] => [rev cur]
  | c :: s' =>
      if c =? ch "/" then rev cur :: split_sep [] s'
      else split_sep (c :: cur) s'
  end.

(** [_PosixFlavour.splitroot]: exactly two leading slashes are kept as the
    root, any other number of them is one slash. *)
Fixpoint lstrip_sep (s : pystr) : pystr :=
  match s with
  | [] => []
  | c :: s' => if c =? ch "/" then lstrip_sep s' else s
  end.

Definition splitroot (part : pystr) : pystr * pystr :=
  match part with
  | c :: _ =>
      if c =? ch "/" then
        let stripped_part := lstrip_sep part in
        if (List.length part - List.length stripped_part =? 2)%nat
        then (py "//", stripped_part)
        else (py "/", stripped_part)
      else ([], part)
  | [] => ([], part)
  end.

(** The components kept by [parse_parts]: neither empty nor [.]. *)
Definition kept_component (x : pystr) : bool :=
  negb (bool_decide (x = [])) && negb (bool_decide (x = py ".")).

Definition components (rel : pystr) : list pystr :=
  List.filter kept_component (split_sep [] rel).

(** A string without separator. *)
Definition no_sep (x : pystr) : Prop := Forall (fun c => (c =? ch "/") = false) x.

(** [_PosixFlavour.parse_parts]: the arguments are read from the last one
    backwards, and the last one that has a root discards those before it. *)
Fixpoint parse_parts (parts : list pystr) : pystr * list pystr :=
  match parts with
  | [] => ([], [])
  | part :: rest =>
      let '(root', parsed') := parse_parts rest in
      match root' with
      | _ :: _ => (root', parsed')
      | [] => let '(root, rel) := splitroot part in (root, components rel ++ parsed')
      end
  end.

(** [PurePath._from_parts(args)]. *)
Definition from_parts (args : list pystr) : PosixPath :=
  let '(root, parsed) := parse_parts args in mkPath root parsed.

(** [Path(s)]. *)
Definition Path (s : pystr) : PosixPath := from_parts [s].

(** ["/".join(parts)]. *)
Fixpoint join_sep (parts : list pystr) : pystr :=
  match parts with
  | [] => []
  | [x] => x
  | x :: rest => x ++ ch "/" :: join_sep rest
  end.

(** [str(path)], which is also [os.fspath(path)]. *)
Definition path_str (p : PosixPath) : pystr :=
  match path_root p ++ join_sep (path_tail p) with
  | [] => py "."
  | s => s
  end.

#[global] Instance Str_PosixPath : Str PosixPath := path_str.

(** ** The enumeration of [fs.py], exceptions and results *)

Inductive FileType : Type := FILE | DIR | FILE_OR_DIR.

#[global] Instance FileType_eq_dec : EqDecision FileType.
Proof. solve_decision. Defined.

(** The values given to the members by [auto()]. *)
Definition FileType_value (ft : FileType) : positive :=
  match ft with FILE => 1 | DIR => 2 | FILE_OR_DIR => 3 end%positive.

Definition FileType_of_value (v : positive) : option FileType :=
  match v with
  | 1 => Some FILE | 2 => Some DIR | 3 => Some FILE_OR_DIR | _ => None
  end%positive.

#[global] Instance FileType_countable : Countable FileType.
Proof.
  refine (inj_countable FileType_value FileType_of_value _).
  intros []; reflexivity.
Defined.

(** Modelled from the spec: [NoSuchFileOrDirectoryError] comes from
    [bubop.exceptions], which is not part of [fs.py]; as the spec has it, it
    is the error of the kind [FILE_OR_DIR] and carries the path, like the two
    built-in errors next to it.

    The first three are the exceptions that [valid_path] builds from a path.
    [OSError errno filename] is the exception of a failed system call, of
    whichever subclass Python picks for the error number ([PermissionError]
    for [EACCES], plain [OSError] for [ENAMETOOLONG]).  [ValueError] and
    [UnicodeEncodeError], its subclass, are raised for a string that cannot
    go to the C library. *)
Inductive exception : Type :=
  | FileNotFoundError (arg : PosixPath)
  | NotADirectoryError (arg : PosixPath)
  | NoSuchFileOrDirectoryError (arg : PosixPath)
  | RuntimeError (msg : pystr)
  | OSError (errno : N) (filename : pystr)
  | ValueError (msg : pystr)
  | UnicodeEncodeError (object : pystr) (start : nat)
  | KeyError (key : FileType)
  | re_error.

#[global] Instance exception_eq_dec : EqDecision exception.
Proof. solve_decision. Defined.

(** The path an exception was built from, if it was built from one. *)
Definition exception_path (e : exception) : option PosixPath :=
  match e with
  | FileNotFoundError p | NotADirectoryError p
  | NoSuchFileOrDirectoryError p => Some p
  | RuntimeError _ | OSError _ _ | ValueError _ | UnicodeEncodeError _ _
  | KeyError _ | re_error => None
  end.

(** [isinstance(e, ValueError)]: [UnicodeEncodeError] is a subclass. *)
Definition is_ValueError (e : exception) : bool :=
  match e with
  | ValueError _ | UnicodeEncodeError _ _ => true
  | _ => false
  end.

(** A call either returns a value or raises. *)
Inductive result (A : Type) : Type :=
  | Ok (a : A)
  | Raise (e : exception).

Arguments Ok {A} a.
Arguments Raise {A} e.

#[global] Instance result_ret : MRet result := fun A a => Ok a.

#[global] Instance result_bind : MBind result := fun A B f m =>
  match m with
  | Ok a => f a
  | Raise e => Raise e
  end.

(** [d[k]] on a dictionary keyed by [FileType]. *)
Definition getitem {V : Type} (d : gmap FileType V) (k : FileType) : result V :=
  match d !! k with
  | Some v => Ok v
  | None => Raise (KeyError k)
  end.

(** ** The operating system, as far as [pathlib] asks

    [os.stat] follows symbolic links.  For each name the kernel either
    finds an entity or fails with an error number; a name missing from
    [os_stat] is one for which it fails with [ENOENT].  Which names it
    refuses for another reason (a name too long, a directory that may not
    be searched) is part of the state. *)

Inductive file_type : Type :=
  S_IFREG | S_IFDIR | S_IFCHR | S_IFBLK | S_IFIFO | S_IFSOCK.

Inductive stat_outcome : Type :=
  | Entity (t : file_type)
  | Errno (errno : N).

(** Error numbers, as Linux numbers them. *)
Definition ENOENT : N := 2.
Definition EBADF : N := 9.
Definition EACCES : N := 13.
Definition ENOTDIR : N := 20.
Definition ENAMETOOLONG : N := 36.
Definition ELOOP : N := 40.

Record os_state : Type := mkOS {
  environ_HOME : option pystr;     (* [os.environ["HOME"]], if set *)
  getpwuid_dir : option pystr;     (* [pwd.getpwuid(os.getuid()).pw_dir] *)
  getpwnam_dir : gmap pystr pystr; (* [pwd.getpwnam(name).pw_dir] *)
  os_stat : gmap pystr stat_outcome (* what the kernel answers to [stat] *)
}.

(** A string goes to the C library in the file system encoding (UTF-8 with
    [surrogateescape]): a surrogate outside U+DC80..U+DCFF cannot be
    encoded, and after that a NUL is refused. *)
Definition unencodable (c : N) : bool :=
  ((0xD800 <=? c) && (c <? 0xDC80)) || ((0xDD00 <=? c) && (c <=? 0xDFFF)).

Fixpoint first_unencodable (s : pystr) : option nat :=
  match s with
  | [] => None
  | c :: s' => if unencodable c then Some O else S <$> first_unencodable s'
  end.

Definition fs_convert (s : pystr) : result unit :=
  match first_unencodable s with
  | Some start => Raise (UnicodeEncodeError s start)
  | None =>
      if existsb (N.eqb 0) s then Raise (ValueError (py "embedded null byte"))
      else Ok tt
  end.

(** [_ignore_error] of [pathlib]: the error numbers of [_IGNORED_ERRNOS]. *)
Definition _ignore_error (errno : N) : bool :=
  (errno =? ENOENT) || (errno =? ENOTDIR) || (errno =? EBADF) || (errno =? ELOOP).

(** The [except] clauses that [Path.exists], [Path.is_dir] and
    [Path.is_file] share: an ignored [OSError] and a [ValueError] give
    [False], any other exception goes on to the caller. *)
Definition except_ignored (r : result bool) : result bool :=
  match r with
  | Ok b => Ok b
  | Raise (OSError errno filename) =>
      if _ignore_error errno then Ok false else Raise (OSError errno filename)
  | Raise e => if is_ValueError e then Ok false else Raise e
  end.

(** [path[1:i]] and [path[i:]] for [i = path.find("/", 1)], given
    [path[1:]]. *)
Fixpoint before_sep (s : pystr) : pystr :=
  match s with
  | [] => []
  | c :: s' => if c =? ch "/" then [] else c :: before_sep s'
  end.

Fixpoint from_sep (s : pystr) : pystr :=
  match s with
  | [] => []
  | c :: s' => if c =? ch "/" then s else from_sep s'
  end.

(** [userhome.rstrip("/")]. *)
Definition rstrip_sep (s : pystr) : pystr := rev (lstrip_sep (rev s)).

Section OS.

Variable os : os_state.

(** The home directory that [os.path.expanduser] looks up: for the empty
    name that of the invoking user ([HOME], else the password database), for
    any other name that of the user of this name. *)
Definition userhome_of (name : pystr) : option pystr :=
  match name with
  | [] =>
      match environ_HOME os with
      | Some home => Some home
      | None => getpwuid_dir os
      end
  | _ :: _ => getpwnam_dir os !! name
  end.

(** [os.path.expanduser]; the argument comes back unchanged when it does
    not start with a tilde or no home is known.  [pwd.getpwnam] first
    converts the name it is given, and of what it raises only the
    [KeyError] for an unknown name is caught ([userhome_of] is [None]
    then); the empty name is not looked up. *)
Definition posixpath_expanduser (path : pystr) : result pystr :=
  match path with
  | c :: after =>
      if c =? ch "~" then
        _ ← match before_sep after with
            | [] => Ok tt
            | name => fs_convert name
            end;
        match userhome_of (before_sep after) with
        | None => Ok path
        | Some userhome =>
            match rstrip_sep userhome ++ from_sep after with
            | [] => Ok (py "/")
            | expanded => Ok expanded
            end
        end
      else Ok path
  | [] => Ok path
  end.

(** [Path.expanduser]. *)
Definition expanduser (self : PosixPath) : result PosixPath :=
  match path_root self, path_tail self with
  | [], first :: rest =>
      if startswith first (py "~") then
        homedir ← posixpath_expanduser first;
        if startswith homedir (py "~")
        then Raise (RuntimeError (py "Could not determine home directory."))
        else Ok (from_parts (homedir :: rest))
      else Ok self
  | _, _ => Ok self
  end.

(** [os.stat(name)]. *)
Definition os_stat_call (name : pystr) : result file_type :=
  _ ← fs_convert name;
  match os_stat os !! name with
  | Some (Entity t) => Ok t
  | Some (Errno errno) => Raise (OSError errno name)
  | None => Raise (OSError ENOENT name)
  end.

(** [Path.stat], and the entity it finds when it returns. *)
Definition Path_stat (self : PosixPath) : result file_type :=
  os_stat_call (path_str self).

Definition stat (self : PosixPath) : option file_type :=
  match Path_stat self with
  | Ok t => Some t
  | Raise _ => None
  end.

Definition S_ISREG (t : file_type) : bool :=
  match t with S_IFREG => true | _ => false end.

Definition S_ISDIR (t : file_type) : bool :=
  match t with S_IFDIR => true | _ => false end.

(** [Path.is_file], [Path.is_dir] and [Path.exists]. *)
Definition is_file (self : PosixPath) : result bool :=
  except_ignored (t ← Path_stat self; mret (S_ISREG t)).

Definition is_dir (self : PosixPath) : result bool :=
  except_ignored (t ← Path_stat self; mret (S_ISDIR t)).

Definition path_exists (self : PosixPath) : result bool :=
  except_ignored (_ ← Path_stat self; mret true).

(** *** [fs.py]: [FileType.exists] and [valid_path] *)

Definition _file_type_to_exists_fn : gmap FileType (PosixPath -> result bool) :=
  list_to_map [
    (FILE, fun p => is_file p);
    (DIR, fun p => is_dir p);
    (FILE_OR_DIR, fun p => path_exists p)
  ].

Definition _file_type_to_not_exists_exc : gmap FileType (PosixPath -> exception) :=
  list_to_map [
    (FILE, FileNotFoundError);
    (DIR, NotADirectoryError);
    (FILE_OR_DIR, NoSuchFileOrDirectoryError)
  ].

Definition FileType_exists (self : FileType) (path : PosixPath) : result bool :=
  f ← getitem _file_type_to_exists_fn self;
  f path.

(** [filetype = None] is a call that leaves the argument out. *)
Definition valid_path (s : pystr) (filetype : option FileType) : result PosixPath :=
  let filetype := default FILE_OR_DIR filetype in
  path ← expanduser (Path s);
  found ← FileType_exists filetype path;
  if negb found then
    exc ← getitem _file_type_to_not_exists_exc filetype;
    Raise (exc path)
  else
    mret path.

End OS.

(** ** The [re] module, for patterns made of single-character items

    A pattern of this fragment is a sequence of literals, [.], the classes
    [\w] and [\W], and bracketed sets of these, after an optional [(?u)] or
    [(?a)].  [re_compile] answers [None] on a pattern that [re] rejects and
    on one that needs more than the fragment (repetition, groups,
    alternation, anchors, the empty pattern). *)

Inductive category : Type := CATEGORY_WORD | CATEGORY_NOT_WORD.

Inductive set_item : Type :=
  | LITERAL (c : N)
  | RANGE (lo hi : N)
  | CATEGORY (cat : category).

Inductive node : Type :=
  | LIT (c : N)
  | ANY
  | IN (negate : bool) (items : list set_item).

Record compiled : Type := mkPattern {
  flag_ascii : bool;      (* [re.ASCII]; otherwise [re.UNICODE], the default *)
  nodes : list node
}.

(** A backslash followed by [c]. *)
Definition class_escape (c : N) : option set_item :=
  if c =? ch "w" then Some (CATEGORY CATEGORY_WORD)
  else if c =? ch "W" then Some (CATEGORY CATEGORY_NOT_WORD)
  else if ascii_isalnum c then None
  else Some (LITERAL c).

(** One member of a set, and the rest of the pattern. *)
Definition parse_set_member (s : pystr) : option (set_item * pystr) :=
  match s with
  | [] => None
  | c :: rest =>
      if c =? ch "\" then
        match rest with
        | [] => None
        | e :: rest' => item ← class_escape e; Some (item, rest')
        end
      else Some (LITERAL c, rest)
  end.

(** The members of a set up to its closing bracket; a bracket that comes
    first is a member, and so is a hyphen that comes first or last. *)
Fixpoint parse_set (fuel : nat) (acc : list set_item) (s : pystr)
  : option (list set_item * pystr) :=
  match fuel with
  | O => None
  | S fuel =>
      match s with
      | [] => None
      | c :: rest =>
          if (c =? ch "]") && negb (bool_decide (acc = [])) then Some (rev acc, rest)
          else
            '(code1, rest1) ← parse_set_member s;
            match rest1 with
            | d :: rest2 =>
                if d =? ch "-" then
                  match rest2 with
                  | [] => None
                  | e :: rest3 =>
                      if e =? ch "]" then Some (rev (LITERAL d :: code1 :: acc), rest3)
                      else
                        '(code2, rest4) ← parse_set_member rest2;
                        match code1, code2 with
                        | LITERAL lo, LITERAL hi =>
                            if lo <=? hi then parse_set fuel (RANGE lo hi :: acc) rest4
                            else None
                        | _, _ => None
                        end
                  end
                else parse_set fuel (code1 :: acc) rest1
            | [] => None
            end
      end
  end.

(** The characters that start something outside the fragment. *)
Definition beyond_fragment (c : N) : bool :=
  existsb (N.eqb c) (py "*+?{}()|^$").

Fixpoint parse_nodes (fuel : nat) (acc : list node) (s : pystr) : option (list node) :=
  match fuel with
  | O => None
  | S fuel =>
      match s with
      | [] => Some (rev acc)
      | c :: rest =>
          if c =? ch "." then parse_nodes fuel (ANY :: acc) rest
          else if c =? ch "[" then
            let '(negate, rest) :=
              match rest with
              | n :: rest' => if n =? ch "^" then (true, rest') else (false, rest)
              | [] => (false, rest)
              end in
            '(items, rest') ← parse_set fuel [] rest;
            parse_nodes fuel (IN negate items :: acc) rest'
          else if c =? ch "\" then
            match rest with
            | [] => None
            | e :: rest' =>
                item ← class_escape e;
                match item with
                | LITERAL l => parse_nodes fuel (LIT l :: acc) rest'
                | _ => parse_nodes fuel (IN false [item] :: acc) rest'
                end
            end
          else if beyond_fragment c then None
          else parse_nodes fuel (LIT c :: acc) rest
      end
  end.

(** [re.compile(pattern)]. *)
Definition re_compile (pattern : pystr) : option compiled :=
  let '(ascii, body) :=
    if startswith pattern (py "(?a)") then (true, drop 4 pattern)
    else if startswith pattern (py "(?u)") then (false, drop 4 pattern)
    else (false, pattern) in
  match parse_nodes (S (List.length body)) [] body with
  | Some (n :: ns) => Some (mkPattern ascii (n :: ns))
  | _ => None
  end.

(** The replacement of [re.sub]; one with a backslash is a template, which
    the fragment leaves out. *)
Definition parse_template (repl : pystr) : option pystr :=
  if existsb (N.eqb (ch "\")) repl then None else Some repl.

Section Unicode.

(** [str.isalnum] on the code points above ASCII, a table of the Unicode
    character database of the interpreter. *)
Variable ucd_isalnum : N -> bool.

Definition isalnum (c : N) : bool :=
  if c <? 0x80 then ascii_isalnum c else ucd_isalnum c.

(** What [\w] matches: an alphanumeric character or the underscore. *)
Definition is_word (ascii : bool) (c : N) : bool :=
  (if ascii then ascii_isalnum c else isalnum c) || (c =? ch "_").

Definition category_match (ascii : bool) (cat : category) (c : N) : bool :=
  match cat with
  | CATEGORY_WORD => is_word ascii c
  | CATEGORY_NOT_WORD => negb (is_word ascii c)
  end.

Definition set_item_match (ascii : bool) (item : set_item) (c : N) : bool :=
  match item with
  | LITERAL l => c =? l
  | RANGE lo hi => (lo <=? c) && (c <=? hi)
  | CATEGORY cat => category_match ascii cat c
  end.

Definition node_match (ascii : bool) (n : node) (c : N) : bool :=
  match n with
  | LIT l => c =? l
  | ANY => negb (c =? 10)
  | IN negate items => xorb negate (existsb (fun item => set_item_match ascii item c) items)
  end.

(** Does the pattern match at the start of [s]? *)
Fixpoint match_here (ascii : bool) (ns : list node) (s : pystr) : bool :=
  match ns, s with
  | [], _ => true
  | n :: ns', c :: s' => node_match ascii n c && match_here ascii ns' s'
  | _ :: _, [] => false
  end.

(** The matches are taken from the left and do not overlap; [skip] counts
    the characters of a match that are still to be passed over. *)
Fixpoint sub_from (p : compiled) (repl : pystr) (skip : nat) (s : pystr) : pystr :=
  match s with
  | [] => []
  | c :: s' =>
      match skip with
      | S n => sub_from p repl n s'
      | O =>
          if match_here (flag_ascii p) (nodes p) s
          then repl ++ sub_from p repl (pred (List.length (nodes p))) s'
          else c :: sub_from p repl O s'
      end
  end.

(** [re.sub(pattern, repl, string)]. *)
Definition re_sub (pattern repl string : pystr) : result pystr :=
  match re_compile pattern, parse_template repl with
  | Some p, Some repl => Ok (sub_from p repl O string)
  | _, _ => Raise re_error
  end.

(** *** [fs.py]: [get_valid_filename] *)

Definition get_valid_filename {A : Type} `{Str A} (s : A) : result pystr :=
  let s := replace (strip (str s)) (py " ") (py "_") in
  re_sub (py "(?u)[^-\w.]") (py "_") s.

(** *** The sanitiser as the specification words it

    Convert to a string, strip leading and trailing whitespace, replace
    each space by an underscore, then replace every character that is not
    a letter, a digit, an underscore, a hyphen or a period by an
    underscore. *)

Definition spec_allowed (c : N) : bool :=
  isalnum c || (c =? ch "_") || (c =? ch "-") || (c =? ch ".").

(** Everything up to the last character that is not whitespace. *)
Definition spec_rstrip (s : pystr) : pystr :=
  fold_right (fun c acc =>
                match acc with
                | [] => if isspace c then [] else [c]
                | _ :: _ => c :: acc
                end) [] s.

Definition spec_strip (s : pystr) : pystr := spec_rstrip (lstrip s).

Definition sanitize_filename_spec {A : Type} `{Str A} (x : A) : pystr :=
  let stripped := spec_strip (str x) in
  let spaced := map (fun c => if c =? ch " " then ch "_" else c) stripped in
  map (fun c => if spec_allowed c then c else ch "_") spaced.

(** What the two replacements make of one character. *)
Definition sanitize_char (c : N) : N :=
  let c' := if c =? ch " " then ch "_" else c in
  if spec_allowed c' then c' else ch "_".

End Unicode.

(** ** What the documentation says of each kind *)

(** The existence predicate of a kind. *)
Definition kind_predicate (os : os_state) (kind : FileType) (p : PosixPath)
  : result bool :=
  match kind with
  | FILE => is_file os p
  | DIR => is_dir os p
  | FILE_OR_DIR => path_exists os p
  end.

(** What a kind asks of the entity that [os.stat] found. *)
Definition kind_holds (kind : FileType) (t : file_type) : bool :=
  match kind with
  | FILE => S_ISREG t
  | DIR => S_ISDIR t
  | FILE_OR_DIR => true
  end.

(** The error of [Path.stat] that the three predicates do not ignore. *)
Definition stat_error (os : os_state) (p : PosixPath) : option exception :=
  match Path_stat os p with
  | Raise (OSError errno filename) =>
      if _ignore_error errno then None else Some (OSError errno filename)
  | _ => None
  end.

(** The entity found at a path, if any, is of the kind. *)
Definition entity_matches (kind : FileType) (entity : option file_type) : Prop :=
  match kind with
  | FILE => entity = Some S_IFREG
  | DIR => entity = Some S_IFDIR
  | FILE_OR_DIR => is_Some entity
  end.

(** The error of a kind. *)
Definition not_exists_error (kind : FileType) (p : PosixPath) : exception :=
  match kind with
  | FILE => FileNotFoundError p
  | DIR => NotADirectoryError p
  | FILE_OR_DIR => NoSuchFileOrDirectoryError p
  end.

(** A home directory as it enters the expanded path: without trailing
    slashes, and the root when nothing else is left. *)
Definition home_string (userhome : pystr) : pystr :=
  match rstrip_sep userhome with
  | [] => py "/"
  | home => home
  end.

(** The path of an input in which only a leading [~] component is
    expanded, to the home of the invoking user, and nothing else is
    changed. *)
Definition expand_own_home_only (os : os_state) (s : pystr) : option PosixPath :=
  match path_root (Path s), path_tail (Path s) with
  | [], first :: rest =>
      if bool_decide (first = py "~") then
        home ← userhome_of os [];
        Some (from_parts (home_string home :: rest))
      else Some (Path s)
  | _, _ => Some (Path s)
  end.

(** ** A machine and a character table to run the functions on *)

(** A name of 256 characters, longer than a directory entry can be. *)
Definition long_name : pystr := repeat (ch "a") 256.

(** [alice] is logged in; [bob] has an account, [carol] has none; the
    kernel refuses the long name and what lies under [/root]. *)
Definition sample_os : os_state :=
  mkOS (Some (py "/home/alice"))
       (Some (py "/home/alice"))
       (list_to_map [(py "alice", py "/home/alice"); (py "bob", py "/home/bob")])
       (list_to_map [
          (py "/", Entity S_IFDIR);
          (py "/etc", Entity S_IFDIR);
          (py "/etc/passwd", Entity S_IFREG);
          (py "/etc/passwd/x", Errno ENOTDIR);
          (py "/dev/null", Entity S_IFCHR);
          (py "/home/alice", Entity S_IFDIR);
          (py "/home/bob", Entity S_IFDIR);
          (py "/home/bob/notes", Entity S_IFREG);
          (py "/home/alice/../bob/notes", Entity S_IFREG);
          (py "/root/secret", Errno EACCES);
          (py "notes", Entity S_IFREG);
          (long_name, Errno ENAMETOOLONG);
          (ch "/" :: long_name, Errno ENAMETOOLONG)
        ]).

(** [str.isalnum] on the Latin-1 supplement, and false above it. *)
Definition latin1_isalnum (c : N) : bool :=
  (c =? 0xAA) || (c =? 0xB2) || (c =? 0xB3) || (c =? 0xB5) || (c =? 0xB9)
  || (c =? 0xBA) || ((0xBC <=? c) && (c <=? 0xBE))
  || ((0xC0 <=? c) && (c <=? 0xD6)) || ((0xD8 <=? c) && (c <=? 0xF6))
  || ((0xF8 <=? c) && (c <=? 0xFF)).

(** The same machine for a process without [HOME] and without an entry in
    the password database. *)
Definition homeless_os : os_state :=
  mkOS None None ∅ (os_stat sample_os).

(** ** Shapes of paths *)

(** A component as [parse_parts] keeps them. *)
Definition wf_component (x : pystr) : Prop :=
  no_sep x /\ kept_component x = true.

(** A path as [parse_parts] builds them. *)
Definition wf_path (p : PosixPath) : Prop :=
  (path_root p = [] \/ path_root p = py "/" \/ path_root p = py "//")
  /\ Forall wf_component (path_tail p).

(** The guard of [Path.expanduser]: no root, and a first component that
    starts with a tilde. *)
Definition leading_tilde (p : PosixPath) : bool :=
  match path_root p, path_tail p with
  | [], first :: _ => startswith first (py "~")
  | _, _ => false
  end.

(** * Properties *)

(** ** Strings *)

Lemma lstrip_length (s : pystr) : (List.length (lstrip s) <= List.length s)%nat.
Proof.
  induction s as [|c s IH]; simpl; [lia|].
  destruct (isspace c); simpl; lia.
Qed.

Lemma lstrip_suffix (s : pystr) : exists w, s = w ++ lstrip s.
Proof.
  induction s as [|c s [w IH]]; simpl.
  - exists []; reflexivity.
  - destruct (isspace c).
    + exists (c :: w). simpl. congruence.
    + exists []. reflexivity.
Qed.

Lemma lstrip_fixed_iff (s : pystr) :
  lstrip s = s <-> match s with [] => True | c :: _ => isspace c = false end.
Proof.
  destruct s as [|c s]; simpl; [tauto|].
  destruct (isspace c) eqn:E; split; try congruence; try reflexivity.
  intros H. pose proof (lstrip_length s) as Hl. rewrite H in Hl. simpl in Hl. lia.
Qed.

Lemma lstrip_idem (s : pystr) : lstrip (lstrip s) = lstrip s.
Proof.
  induction s as [|c s IH]; simpl; [reflexivity|].
  destruct (isspace c) eqn:E; [exact IH|]. simpl. rewrite E. reflexivity.
Qed.

Lemma rstrip_length (s : pystr) : (List.length (rstrip s) <= List.length s)%nat.
Proof.
  unfold rstrip. rewrite length_rev.
  pose proof (lstrip_length (rev s)) as H. rewrite length_rev in H. exact H.
Qed.

Lemma strip_length (s : pystr) : (List.length (strip s) <= List.length s)%nat.
Proof.
  unfold strip. pose proof (rstrip_length (lstrip s)). pose proof (lstrip_length s). lia.
Qed.

Lemma rstrip_snoc (s : pystr) (c : N) :
  rstrip (s ++ [c]) = if isspace c then rstrip s else s ++ [c].
Proof.
  unfold rstrip. rewrite rev_app_distr. simpl.
  destruct (isspace c); [reflexivity|].
  simpl. rewrite rev_involutive. reflexivity.
Qed.

Lemma spec_rstrip_snoc (s : pystr) (c : N) :
  spec_rstrip (s ++ [c]) = if isspace c then spec_rstrip s else s ++ [c].
Proof.
  induction s as [|a s IH]; simpl.
  - destruct (isspace c); reflexivity.
  - unfold spec_rstrip in *. simpl. rewrite IH.
    destruct (isspace c); [reflexivity|].
    destruct (s ++ [c]) eqn:E; [|reflexivity].
    destruct s; discriminate.
Qed.

(** The two ways of stripping the right end agree. *)
Lemma rstrip_spec_rstrip (s : pystr) : rstrip s = spec_rstrip s.
Proof.
  induction s as [|c s IH] using rev_ind; [reflexivity|].
  rewrite rstrip_snoc, spec_rstrip_snoc, IH. reflexivity.
Qed.

Lemma rstrip_fixed_iff (s : pystr) : rstrip s = s <-> lstrip (rev s) = rev s.
Proof.
  unfold rstrip. split; intros H.
  - rewrite <- H at 2. rewrite rev_involutive. reflexivity.
  - rewrite H. apply rev_involutive.
Qed.

Lemma rstrip_idem (s : pystr) : rstrip (rstrip s) = rstrip s.
Proof. unfold rstrip. rewrite rev_involutive, lstrip_idem. reflexivity. Qed.

(** Stripping the right end leaves a left end that starts without
    whitespace as it is. *)
Lemma lstrip_rstrip_fixed (s : pystr) : lstrip s = s -> lstrip (rstrip s) = rstrip s.
Proof.
  intros H. apply lstrip_fixed_iff in H. apply lstrip_fixed_iff.
  rewrite rstrip_spec_rstrip.
  destruct s as [|c s]; simpl; [exact I|].
  change (fold_right _ [] s) with (spec_rstrip s).
  destruct (spec_rstrip s); [rewrite H|]; exact H.
Qed.

Lemma strip_lstrip_fixed (s : pystr) : lstrip (strip s) = strip s.
Proof. apply lstrip_rstrip_fixed, lstrip_idem. Qed.

Lemma strip_rstrip_fixed (s : pystr) : rstrip (strip s) = strip s.
Proof. apply rstrip_idem. Qed.

(** A map that makes no whitespace out of other characters keeps a
    stripped string stripped. *)
Lemma lstrip_map_fixed (g : N -> N) (s : pystr) :
  (forall c, isspace c = false -> isspace (g c) = false) ->
  lstrip s = s -> lstrip (map g s) = map g s.
Proof.
  intros Hg H. apply lstrip_fixed_iff in H. apply lstrip_fixed_iff.
  destruct s as [|c s]; simpl; [exact I|]. apply Hg, H.
Qed.

Lemma strip_map_fixed (g : N -> N) (s : pystr) :
  (forall c, isspace c = false -> isspace (g c) = false) ->
  lstrip s = s -> rstrip s = s -> strip (map g s) = map g s.
Proof.
  intros Hg Hl Hr. unfold strip.
  rewrite (lstrip_map_fixed g s Hg Hl).
  apply rstrip_fixed_iff. rewrite <- map_rev.
  apply lstrip_map_fixed; [exact Hg|]. apply rstrip_fixed_iff, Hr.
Qed.

Lemma startswith_nil (s : pystr) : startswith s [] = true.
Proof. destruct s; reflexivity. Qed.

Lemma replace_single (a b : N) (s : pystr) :
  replace s [a] [b] = map (fun c => if c =? a then b else c) s.
Proof.
  unfold replace.
  induction s as [|c s IH]; simpl; [reflexivity|].
  rewrite startswith_nil, andb_true_r. destruct (c =? a); simpl; rewrite IH; reflexivity.
Qed.

(** ** Regular expressions *)

Section Sanitiser.

Variable ucd_isalnum : N -> bool.

Lemma sub_from_single (p : compiled) (n : node) (r : N) (s : pystr) :
  nodes p = [n] ->
  sub_from ucd_isalnum p [r] O s
  = map (fun c => if node_match ucd_isalnum (flag_ascii p) n c then r else c) s.
Proof.
  intros Hn. induction s as [|c s IH]; simpl; [reflexivity|].
  rewrite Hn. simpl. rewrite andb_true_r.
  destruct (node_match ucd_isalnum (flag_ascii p) n c); simpl; rewrite IH; reflexivity.
Qed.

Lemma pattern_compiled :
  re_compile (py "(?u)[^-\w.]")
  = Some (mkPattern false
            [IN true [LITERAL (ch "-"); CATEGORY CATEGORY_WORD; LITERAL (ch ".")]]).
Proof. vm_compute. reflexivity. Qed.

(** The set of the pattern is the complement of the allowed characters. *)
Lemma pattern_match_allowed (c : N) :
  node_match ucd_isalnum false
    (IN true [LITERAL (ch "-"); CATEGORY CATEGORY_WORD; LITERAL (ch ".")]) c
  = negb (spec_allowed ucd_isalnum c).
Proof.
  unfold node_match, spec_allowed, existsb, set_item_match, category_match, is_word.
  destruct (isalnum ucd_isalnum c), (c =? ch "_"), (c =? ch "-"), (c =? ch "."); reflexivity.
Qed.

(** [get_valid_filename] returns, and returns what the specification
    describes. *)
Lemma get_valid_filename_unfold {A : Type} `{Str A} (x : A) :
  get_valid_filename ucd_isalnum x = Ok (sanitize_filename_spec ucd_isalnum x).
Proof.
  unfold get_valid_filename, re_sub, sanitize_filename_spec, spec_strip.
  rewrite pattern_compiled.
  change (parse_template (py "_")) with (Some [ch "_"]).
  change (py " ") with [ch " "]. change (py "_") with [ch "_"].
  rewrite replace_single.
  rewrite (sub_from_single (mkPattern false _) _ _ _ (eq_refl [_])). cbn [flag_ascii].
  unfold strip. rewrite rstrip_spec_rstrip.
  f_equal. apply map_ext. intros c.
  rewrite pattern_match_allowed.
  destruct (spec_allowed ucd_isalnum c); reflexivity.
Qed.

(** The output is the stripped input, character by character. *)
Lemma sanitize_filename_spec_map {A : Type} `{Str A} (x : A) :
  sanitize_filename_spec ucd_isalnum x
  = map (sanitize_char ucd_isalnum) (strip (str x)).
Proof.
  unfold sanitize_filename_spec, spec_strip, strip.
  rewrite <- rstrip_spec_rstrip, map_map. reflexivity.
Qed.

Lemma sanitize_filename_spec_length {A : Type} `{Str A} (x : A) :
  List.length (sanitize_filename_spec ucd_isalnum x) = List.length (strip (str x)).
Proof. rewrite sanitize_filename_spec_map. apply length_map. Qed.

(** *** One character *)

Lemma spec_allowed_underscore : spec_allowed ucd_isalnum (ch "_") = true.
Proof. reflexivity. Qed.

Lemma spec_allowed_not_blank (c : N) :
  spec_allowed ucd_isalnum c = true -> (c =? ch " ") = false.
Proof.
  intros H. destruct (N.eqb_spec c (ch " ")) as [->|]; [|reflexivity].
  discriminate H.
Qed.

Lemma sanitize_char_allowed (c : N) :
  spec_allowed ucd_isalnum (sanitize_char ucd_isalnum c) = true.
Proof.
  unfold sanitize_char.
  destruct (spec_allowed ucd_isalnum (if c =? ch " " then ch "_" else c)) eqn:E;
    [exact E | exact spec_allowed_underscore].
Qed.

Lemma sanitize_char_fixed (c : N) :
  spec_allowed ucd_isalnum c = true -> sanitize_char ucd_isalnum c = c.
Proof.
  intros H. unfold sanitize_char.
  rewrite (spec_allowed_not_blank c H), H. reflexivity.
Qed.

(** A character that is not whitespace stays one. *)
Lemma sanitize_char_not_space (c : N) :
  isspace c = false -> isspace (sanitize_char ucd_isalnum c) = false.
Proof.
  intros H. unfold sanitize_char.
  destruct (N.eqb_spec c (ch " ")) as [->|_]; [discriminate H|].
  destruct (spec_allowed ucd_isalnum c); [exact H | reflexivity].
Qed.

Lemma sanitize_filename_spec_allowed {A : Type} `{Str A} (x : A) :
  Forall (fun c => spec_allowed ucd_isalnum c = true)
         (sanitize_filename_spec ucd_isalnum x).
Proof.
  rewrite sanitize_filename_spec_map. apply Forall_map, Forall_forall.
  intros c _. apply sanitize_char_allowed.
Qed.

(** The sanitiser leaves its own output as it is. *)
Lemma sanitize_filename_spec_fixed {A : Type} `{Str A} (x : A) :
  sanitize_filename_spec ucd_isalnum (sanitize_filename_spec ucd_isalnum x)
  = sanitize_filename_spec ucd_isalnum x.
Proof.
  rewrite (sanitize_filename_spec_map (sanitize_filename_spec ucd_isalnum x)).
  change (str (sanitize_filename_spec ucd_isalnum x))
    with (sanitize_filename_spec ucd_isalnum x).
  pose proof (sanitize_filename_spec_allowed x) as Hall.
  rewrite sanitize_filename_spec_map in *.
  rewrite (strip_map_fixed _ _ sanitize_char_not_space
             (strip_lstrip_fixed _) (strip_rstrip_fixed _)).
  induction Hall as [|c l Hc _ IH]; simpl; [reflexivity|].
  rewrite (sanitize_char_fixed c Hc), IH. reflexivity.
Qed.

End Sanitiser.

(** ** [get_valid_filename] *)

(** C4: for every input value, [get_valid_filename] returns the result of
    the reference definition: the string form of the value, stripped of
    leading and trailing whitespace, with each space replaced by an
    underscore and then every character that is not alphanumeric, an
    underscore, a hyphen or a period replaced by an underscore; and the
    input [5678^()^] gives [5678____]. *)
Theorem get_valid_filename_refines_spec :
  (forall (ucd_isalnum : N -> bool) (A : Type) (StrA : Str A) (x : A),
      get_valid_filename ucd_isalnum x = Ok (sanitize_filename_spec ucd_isalnum x))
  /\ (forall ucd_isalnum : N -> bool,
         get_valid_filename ucd_isalnum (py "5678^()^") = Ok (py "5678____")).
Proof.
  split.
  - intros ucd_isalnum A StrA x. apply get_valid_filename_unfold.
  - intros ucd_isalnum. rewrite get_valid_filename_unfold. reflexivity.
Qed.

(** C5: [get_valid_filename] is idempotent: applied to its own output it
    returns that output again. *)
Theorem get_valid_filename_idempotent
    (ucd_isalnum : N -> bool) (A : Type) (StrA : Str A) (x : A) :
  exists y : pystr,
    get_valid_filename ucd_isalnum x = Ok y
    /\ get_valid_filename ucd_isalnum y = Ok y.
Proof.
  exists (sanitize_filename_spec ucd_isalnum x). split.
  - apply get_valid_filename_unfold.
  - rewrite get_valid_filename_unfold. f_equal. apply sanitize_filename_spec_fixed.
Qed.

(** C6, as stated, fails: the input [" a "] is made of single-byte
    characters and has length 3, and the output ["a"] has length 1. *)
Lemma get_valid_filename_same_length_counterexample :
  ~ (forall (ucd_isalnum : N -> bool) (s y : pystr),
        Forall (fun c => single_byte c = true) s ->
        get_valid_filename ucd_isalnum s = Ok y ->
        List.length y = List.length s).
Proof.
  intros Hclaim.
  specialize (Hclaim latin1_isalnum (py " a ") (py "a")).
  assert (Hlen : List.length (py "a") = List.length (py " a ")).
  { apply Hclaim.
    - repeat (constructor; [reflexivity|]). constructor.
    - rewrite get_valid_filename_unfold. reflexivity. }
  discriminate Hlen.
Qed.

(** C6, amended: for every input composed of single-byte characters, the
    output has the length of the input stripped of its leading and trailing
    whitespace, hence the length of the input when stripping leaves the
    input as it is. *)
Theorem get_valid_filename_length_stripped (ucd_isalnum : N -> bool) (s : pystr) :
  Forall (fun c => single_byte c = true) s ->
  exists y : pystr,
    get_valid_filename ucd_isalnum s = Ok y
    /\ List.length y = List.length (strip s)
    /\ (strip s = s -> List.length y = List.length s).
Proof.
  intros _. exists (sanitize_filename_spec ucd_isalnum s).
  split; [apply get_valid_filename_unfold|].
  pose proof (sanitize_filename_spec_length ucd_isalnum s) as Hlen.
  change (str s) with s in Hlen.
  split; [exact Hlen|]. intros Hs. rewrite Hlen, Hs. reflexivity.
Qed.

Lemma get_valid_filename_length_stripped_witness :
  exists y : pystr,
    get_valid_filename latin1_isalnum (py " a^b ") = Ok y
    /\ List.length y = List.length (strip (py " a^b "))
    /\ (strip (py " a^b ") = py " a^b " -> List.length y = List.length (py " a^b ")).
Proof.
  apply get_valid_filename_length_stripped.
  repeat (constructor; [reflexivity|]). constructor.
Defined.

(** C7: [get_valid_filename] returns on every input string, and returns the
    empty string on the empty string. *)
Theorem get_valid_filename_total :
  (forall (ucd_isalnum : N -> bool) (s : pystr),
      exists y : pystr, get_valid_filename ucd_isalnum s = Ok y)
  /\ (forall ucd_isalnum : N -> bool, get_valid_filename ucd_isalnum ([] : pystr) = Ok []).
Proof.
  split.
  - intros ucd_isalnum s. eexists. apply get_valid_filename_unfold.
  - intros ucd_isalnum. rewrite get_valid_filename_unfold. reflexivity.
Qed.

(** In the sample table, as in Unicode, no whitespace is alphanumeric. *)
Lemma latin1_space_not_alnum (c : N) :
  isspace c = true -> isalnum latin1_isalnum c = false.
Proof.
  unfold isspace. rewrite !orb_true_iff, !andb_true_iff, !N.leb_le, !N.eqb_eq.
  intros Hsp. unfold isalnum, latin1_isalnum, ascii_isalnum.
  repeat (match goal with
          | |- context [N.ltb ?a ?b] => destruct (N.ltb_spec a b)
          | |- context [N.leb ?a ?b] => destruct (N.leb_spec a b)
          | |- context [N.eqb ?a ?b] => destruct (N.eqb_spec a b)
          end; try lia; cbn [andb orb]); reflexivity.
Qed.

(** C8: every character of the output is a word character, a hyphen or a
    period; the output holds no slash, and, no whitespace character being
    alphanumeric in Unicode, no whitespace. *)
Theorem get_valid_filename_output_chars
    (ucd_isalnum : N -> bool) (A : Type) (StrA : Str A) (x : A) :
  exists y : pystr,
    get_valid_filename ucd_isalnum x = Ok y
    /\ Forall (fun c => is_word ucd_isalnum false c = true
                        \/ c = ch "-" \/ c = ch ".") y
    /\ ~ In (ch "/") y
    /\ ((forall c, isspace c = true -> isalnum ucd_isalnum c = false) ->
        Forall (fun c => isspace c = false) y).
Proof.
  exists (sanitize_filename_spec ucd_isalnum x).
  split; [apply get_valid_filename_unfold|].
  pose proof (sanitize_filename_spec_allowed ucd_isalnum x) as Hall.
  rewrite Forall_forall in Hall.
  split; [|split].
  - apply Forall_forall. intros c Hc. specialize (Hall c Hc).
    unfold spec_allowed in Hall. unfold is_word.
    apply orb_true_iff in Hall as [Hall | Hdot];
      [|right; right; apply N.eqb_eq, Hdot].
    apply orb_true_iff in Hall as [Hall | Hhyp];
      [|right; left; apply N.eqb_eq, Hhyp].
    left. exact Hall.
  - intros Hin. apply list_elem_of_In in Hin. specialize (Hall _ Hin).
    discriminate Hall.
  - intros Hucd. apply Forall_forall. intros c Hc. specialize (Hall c Hc).
    destruct (isspace c) eqn:Hsp; [|reflexivity].
    unfold spec_allowed in Hall. rewrite (Hucd c Hsp) in Hall.
    repeat (apply orb_true_iff in Hall as [Hall | Hall]);
      try discriminate Hall;
      apply N.eqb_eq in Hall; subst c; discriminate Hsp.
Qed.

Lemma get_valid_filename_output_chars_witness :
  exists y : pystr,
    get_valid_filename latin1_isalnum (py " a/b c.d-e ") = Ok y
    /\ Forall (fun c => is_word latin1_isalnum false c = true
                        \/ c = ch "-" \/ c = ch ".") y
    /\ ~ In (ch "/") y
    /\ Forall (fun c => isspace c = false) y.
Proof.
  destruct (get_valid_filename_output_chars latin1_isalnum pystr _ (py " a/b c.d-e "))
    as (y & Hy & Hchars & Hslash & Hspace).
  exists y. repeat split; try assumption.
  apply Hspace. exact latin1_space_not_alnum.
Defined.

(** C9: the output is never longer than the string form of the input. *)
Theorem get_valid_filename_length_le
    (ucd_isalnum : N -> bool) (A : Type) (StrA : Str A) (x : A) :
  exists y : pystr,
    get_valid_filename ucd_isalnum x = Ok y
    /\ (List.length y <= List.length (str x))%nat.
Proof.
  exists (sanitize_filename_spec ucd_isalnum x).
  split; [apply get_valid_filename_unfold|].
  rewrite sanitize_filename_spec_length. apply strip_length.
Qed.

(** ** Paths *)

Lemma split_sep_no_sep (s cur : pystr) :
  no_sep cur -> Forall no_sep (split_sep cur s).
Proof.
  revert cur. induction s as [|c s IH]; intros cur Hcur; simpl.
  - constructor; [|constructor]. apply Forall_rev, Hcur.
  - destruct (c =? ch "/") eqn:E.
    + constructor; [apply Forall_rev, Hcur|]. apply IH. constructor.
    + apply IH. constructor; assumption.
Qed.

(** No component of a parsed path holds a separator. *)
Lemma Path_tail_no_sep (s : pystr) : Forall no_sep (path_tail (Path s)).
Proof.
  unfold Path, from_parts, parse_parts.
  destruct (splitroot s) as [root rel]. simpl. rewrite app_nil_r.
  unfold components.
  assert (H : Forall no_sep (split_sep [] rel)) by (apply split_sep_no_sep; constructor).
  rewrite Forall_forall in *. intros x Hx.
  apply list_elem_of_In, filter_In in Hx as [Hx _]. apply H, list_elem_of_In, Hx.
Qed.

Lemma before_sep_no_sep (x : pystr) : no_sep x -> before_sep x = x.
Proof.
  induction 1 as [|c x Hc _ IH]; simpl; [reflexivity|].
  rewrite Hc, IH. reflexivity.
Qed.

Lemma from_sep_no_sep (x : pystr) : no_sep x -> from_sep x = [].
Proof.
  induction 1 as [|c x Hc _ IH]; simpl; [reflexivity|].
  rewrite Hc. exact IH.
Qed.

(** [os.path.expanduser] on one component that starts with a tilde. *)
Lemma posixpath_expanduser_component (os : os_state) (name : pystr) :
  no_sep name ->
  posixpath_expanduser os (ch "~" :: name)
  = match fs_convert name with
    | Ok _ =>
        match userhome_of os name with
        | None => Ok (ch "~" :: name)
        | Some userhome => Ok (home_string userhome)
        end
    | Raise e => Raise e
    end.
Proof.
  intros Hname. unfold posixpath_expanduser.
  rewrite N.eqb_refl, (before_sep_no_sep _ Hname), (from_sep_no_sep _ Hname).
  assert (Hconv : match name with [] => Ok tt | c :: l => fs_convert (c :: l) end
                  = fs_convert name) by (destruct name; reflexivity).
  rewrite Hconv. destruct (fs_convert name) as [[]|e]; [|reflexivity].
  cbn [mbind result_bind].
  destruct (userhome_of os name) as [userhome|]; [|reflexivity].
  rewrite app_nil_r. unfold home_string. destruct (rstrip_sep userhome); reflexivity.
Qed.

(** What converting a string for the C library can raise. *)
Lemma fs_convert_raises (s : pystr) (e : exception) :
  fs_convert s = Raise e -> is_ValueError e = true.
Proof.
  unfold fs_convert. destruct (first_unencodable s); [intros [= <-]; reflexivity|].
  destruct (existsb (N.eqb 0) s); [intros [= <-]; reflexivity | discriminate].
Qed.

(** ** [FileType.exists] and [valid_path] *)

Section Validation.

Variable os : os_state.

(** The two tables have an entry for every member of the enumeration. *)
Lemma getitem_exists_fn (kind : FileType) :
  getitem (_file_type_to_exists_fn os) kind = Ok (kind_predicate os kind).
Proof. destruct kind; reflexivity. Qed.

Lemma getitem_not_exists_exc (kind : FileType) :
  getitem _file_type_to_not_exists_exc kind = Ok (not_exists_error kind).
Proof. destruct kind; reflexivity. Qed.

Lemma FileType_exists_unfold (kind : FileType) (p : PosixPath) :
  FileType_exists os kind p = kind_predicate os kind p.
Proof. unfold FileType_exists. rewrite getitem_exists_fn. reflexivity. Qed.

(** [Path.stat] returns, or raises an [OSError] that names the path, or a
    [ValueError]. *)
Lemma Path_stat_outcome (p : PosixPath) :
  match Path_stat os p with
  | Ok _ => True
  | Raise (OSError _ filename) => filename = path_str p
  | Raise e => is_ValueError e = true
  end.
Proof.
  unfold Path_stat, os_stat_call.
  destruct (fs_convert (path_str p)) as [[]|e] eqn:E.
  - cbn [mbind result_bind]. destruct (os_stat os !! path_str p) as [[]|]; reflexivity.
  - cbn [mbind result_bind]. pose proof (fs_convert_raises _ _ E) as He.
    destruct e; try discriminate He; reflexivity.
Qed.

(** The three predicates differ in what they ask of the entity only. *)
Lemma kind_predicate_stat (kind : FileType) (p : PosixPath) :
  kind_predicate os kind p
  = match Path_stat os p with
    | Ok t => Ok (kind_holds kind t)
    | Raise _ =>
        match stat_error os p with
        | Some e => Raise e
        | None => Ok false
        end
    end.
Proof.
  pose proof (Path_stat_outcome p) as Hout. unfold stat_error.
  destruct kind; unfold kind_predicate, is_file, is_dir, path_exists;
    destruct (Path_stat os p) as [t|e]; try reflexivity;
    destruct e; try discriminate Hout; cbn; try reflexivity;
    destruct (_ignore_error errno); reflexivity.
Qed.

Lemma stat_error_stat (p : PosixPath) (e : exception) :
  stat_error os p = Some e ->
  stat os p = None
  /\ exists errno, e = OSError errno (path_str p) /\ _ignore_error errno = false.
Proof.
  pose proof (Path_stat_outcome p) as Hout. unfold stat_error, stat.
  destruct (Path_stat os p) as [t|[]]; try discriminate.
  destruct (_ignore_error errno) eqn:E; [discriminate|]. intros [= <-].
  split; [reflexivity|]. exists errno. rewrite Hout. split; [reflexivity | exact E].
Qed.

Lemma kind_predicate_error (kind : FileType) (p : PosixPath) (e : exception) :
  stat_error os p = Some e -> kind_predicate os kind p = Raise e.
Proof.
  intros H. rewrite kind_predicate_stat, H.
  unfold stat_error in H. destruct (Path_stat os p); [discriminate H | reflexivity].
Qed.

Lemma kind_predicate_no_error (kind : FileType) (p : PosixPath) :
  stat_error os p = None ->
  kind_predicate os kind p
  = Ok (match stat os p with Some t => kind_holds kind t | None => false end).
Proof.
  intros H. rewrite kind_predicate_stat, H. unfold stat.
  destruct (Path_stat os p); reflexivity.
Qed.

Lemma kind_predicate_raises (kind : FileType) (p : PosixPath) (e : exception) :
  kind_predicate os kind p = Raise e -> stat_error os p = Some e.
Proof.
  intros H. destruct (stat_error os p) as [e'|] eqn:E.
  - rewrite (kind_predicate_error kind p e' E) in H. congruence.
  - rewrite (kind_predicate_no_error kind p E) in H. discriminate H.
Qed.

Lemma kind_predicate_Ok (kind : FileType) (p : PosixPath) (b : bool) :
  kind_predicate os kind p = Ok b ->
  stat_error os p = None
  /\ b = match stat os p with Some t => kind_holds kind t | None => false end.
Proof.
  intros H. destruct (stat_error os p) as [e|] eqn:E.
  - rewrite (kind_predicate_error kind p e E) in H. discriminate H.
  - rewrite (kind_predicate_no_error kind p E) in H. split; congruence.
Qed.

Lemma valid_path_unfold (s : pystr) (filetype : option FileType) :
  valid_path os s filetype
  = match expanduser os (Path s) with
    | Ok p =>
        match kind_predicate os (default FILE_OR_DIR filetype) p with
        | Ok true => Ok p
        | Ok false => Raise (not_exists_error (default FILE_OR_DIR filetype) p)
        | Raise e => Raise e
        end
    | Raise e => Raise e
    end.
Proof.
  unfold valid_path. destruct (expanduser os (Path s)) as [p|e]; [|reflexivity].
  cbn [mbind result_bind]. rewrite FileType_exists_unfold.
  destruct (kind_predicate os (default FILE_OR_DIR filetype) p) as [[]|e];
    cbn [mbind result_bind negb]; [reflexivity | | reflexivity].
  rewrite getitem_not_exists_exc. reflexivity.
Qed.

(** The expansion fails for an unknown home, or in the conversion of the
    user name. *)
Lemma expanduser_raises (s : pystr) (e : exception) :
  expanduser os (Path s) = Raise e ->
  e = RuntimeError (py "Could not determine home directory.")
  \/ is_ValueError e = true.
Proof.
  unfold expanduser. intros H. pose proof (Path_tail_no_sep s) as Hwf.
  destruct (path_root (Path s)); [|discriminate H].
  destruct (path_tail (Path s)) as [|first rest]; [discriminate H|].
  destruct (startswith first (py "~")) eqn:Htilde; [|discriminate H].
  apply Forall_cons in Hwf as [Hfirst _].
  destruct first as [|c name]; [discriminate Htilde|].
  change (startswith (c :: name) (py "~"))
    with ((c =? ch "~") && startswith name []) in Htilde.
  apply andb_true_iff in Htilde as [Hc _]. apply N.eqb_eq in Hc as ->.
  apply Forall_cons in Hfirst as [_ Hname].
  rewrite (posixpath_expanduser_component os name Hname) in H.
  destruct (fs_convert name) as [[]|e'] eqn:Hconv.
  - left. destruct (userhome_of os name); cbn [mbind result_bind] in H;
      match type of H with
      | (if ?b then _ else _) = _ => destruct b; congruence
      end.
  - right. cbn [mbind result_bind] in H. injection H as <-.
    exact (fs_convert_raises _ _ Hconv).
Qed.

Lemma valid_path_Ok_expanduser (s : pystr) (filetype : option FileType)
    (p : PosixPath) :
  valid_path os s filetype = Ok p <->
  expanduser os (Path s) = Ok p
  /\ kind_predicate os (default FILE_OR_DIR filetype) p = Ok true.
Proof.
  rewrite valid_path_unfold.
  destruct (expanduser os (Path s)) as [q|e].
  - destruct (kind_predicate os (default FILE_OR_DIR filetype) q) as [[]|e] eqn:E.
    + split; [intros [= <-]; split; [reflexivity | exact E]
             | intros [[= <-] _]; reflexivity].
    + split; [discriminate | intros [[= <-] H]; congruence].
    + split; [discriminate | intros [[= <-] H]; congruence].
  - split; [discriminate | intros [H _]; discriminate H].
Qed.

(** The three ways a call ends once the expansion has succeeded. *)
Lemma valid_path_expanded (s : pystr) (filetype : option FileType) (p : PosixPath) :
  expanduser os (Path s) = Ok p ->
  valid_path os s filetype = Ok p
  \/ valid_path os s filetype
     = Raise (not_exists_error (default FILE_OR_DIR filetype) p)
  \/ (exists errno,
         valid_path os s filetype = Raise (OSError errno (str p))
         /\ _ignore_error errno = false).
Proof.
  intros E. rewrite valid_path_unfold, E.
  destruct (kind_predicate os (default FILE_OR_DIR filetype) p) as [[]|e] eqn:K;
    [left; reflexivity | right; left; reflexivity | right; right].
  apply kind_predicate_raises, stat_error_stat in K as [_ (errno & -> & K)].
  exists errno. split; [reflexivity | exact K].
Qed.

End Validation.

(** C2, as stated, fails: for a name that the kernel refuses as too long,
    [FileType.exists] does not return; it raises the [OSError] of
    [os.stat]. *)
Lemma FileType_exists_counterexample :
  ~ (forall (os : os_state) (kind : FileType) (p : PosixPath),
        exists b : bool, FileType_exists os kind p = Ok b).
Proof.
  intros Hclaim.
  destruct (Hclaim sample_os FILE (Path long_name)) as [b H].
  vm_compute in H. discriminate H.
Qed.

(** C2, amended: whatever the kind and the path, [FileType.exists] either
    passes on the error of [os.stat] that [pathlib] does not ignore, or
    returns, and then returns true exactly when the entity at the path
    matches the kind: a regular file for [FILE], a directory for [DIR],
    anything for [FILE_OR_DIR]; where nothing is found it returns false. *)
Theorem FileType_exists_matches_kind
    (os : os_state) (kind : FileType) (p : PosixPath) :
  match stat_error os p with
  | Some e => FileType_exists os kind p = Raise e
  | None =>
      exists b : bool,
        FileType_exists os kind p = Ok b
        /\ (b = true <-> entity_matches kind (stat os p))
        /\ (stat os p = None -> b = false)
  end.
Proof.
  rewrite FileType_exists_unfold.
  destruct (stat_error os p) as [e|] eqn:E.
  - exact (kind_predicate_error os kind p e E).
  - rewrite (kind_predicate_no_error os kind p E). eexists. split; [reflexivity|].
    unfold entity_matches. split.
    + destruct kind, (stat os p) as [[]|]; rewrite ?is_Some_alt; simpl; naive_solver.
    + intros ->. reflexivity.
Qed.

(** C1, as stated, fails: for a leading [~carol] where no user [carol] is
    known the call neither returns a path nor raises the error of the kind. *)
Lemma valid_path_by_kind_counterexample :
  ~ (forall (os : os_state) (s : pystr) (filetype : option FileType),
        (exists p, valid_path os s filetype = Ok p)
        \/ (exists p, valid_path os s filetype
                      = Raise (not_exists_error (default FILE_OR_DIR filetype) p))).
Proof.
  intros Hclaim.
  destruct (Hclaim sample_os (py "~carol/notes") None) as [[p H] | [p H]];
    vm_compute in H; discriminate H.
Qed.

(** C1, amended: for every input string whose home expansion succeeds, and
    every kind ([FILE_OR_DIR] when left out), if the predicate of the kind
    answers for the expanded path, [valid_path] returns a path iff the
    answer is true, returns that path, and otherwise raises exactly the
    error of the kind; if the predicate raises instead, which it does for
    an [OSError] of [os.stat] that [pathlib] does not ignore, [valid_path]
    raises that error.  When the expansion fails, [valid_path] raises what
    the expansion raised: the [RuntimeError] for an unknown home, or the
    [ValueError] for a user name that cannot be looked up. *)
Theorem valid_path_by_kind
    (os : os_state) (s : pystr) (filetype : option FileType) :
  match expanduser os (Path s) with
  | Ok p =>
      let kind := default FILE_OR_DIR filetype in
      match kind_predicate os kind p with
      | Ok found =>
          ((exists q, valid_path os s filetype = Ok q) <-> found = true)
          /\ (found = true -> valid_path os s filetype = Ok p)
          /\ (found = false ->
              valid_path os s filetype = Raise (not_exists_error kind p))
      | Raise e =>
          valid_path os s filetype = Raise e
          /\ exists errno,
               e = OSError errno (str p) /\ _ignore_error errno = false
      end
  | Raise e =>
      valid_path os s filetype = Raise e
      /\ (e = RuntimeError (py "Could not determine home directory.")
          \/ is_ValueError e = true)
  end.
Proof.
  rewrite valid_path_unfold.
  destruct (expanduser os (Path s)) as [p|e] eqn:E.
  - cbn zeta.
    destruct (kind_predicate os (default FILE_OR_DIR filetype) p) as [[]|e] eqn:K.
    + split; [split; [reflexivity | intros _; eexists; reflexivity]|].
      split; [reflexivity | discriminate].
    + split; [split; [intros [q H]; discriminate H | discriminate]|].
      split; [discriminate | reflexivity].
    + split; [reflexivity|].
      apply kind_predicate_raises, stat_error_stat in K as [_ K]. exact K.
  - split; [reflexivity|]. exact (expanduser_raises os _ _ E).
Qed.

(** C3, as stated, fails: [alice] asks for [~bob/notes] and gets
    [/home/bob/notes], which is not her input with a leading [~] expanded to
    her own home directory. *)
Lemma valid_path_own_home_counterexample :
  ~ (forall (os : os_state) (s : pystr) (filetype : option FileType) (p : PosixPath),
        valid_path os s filetype = Ok p -> expand_own_home_only os s = Some p).
Proof.
  intros Hclaim.
  specialize (Hclaim sample_os (py "~bob/notes") (Some FILE)
                (Path (py "/home/bob/notes")) eq_refl).
  vm_compute in Hclaim. discriminate Hclaim.
Qed.

(** C3, amended: whenever [valid_path] succeeds, the path it returns is the
    expansion of the parsed input and nothing else: a leading [~] component
    replaced by the home directory of the invoking user, a leading [~name]
    component by the home directory of the user [name], and the parsed input
    itself in every other case (no link is resolved, a relative path stays
    relative). *)
Theorem valid_path_returns_expansion
    (os : os_state) (s : pystr) (filetype : option FileType) (p : PosixPath) :
  valid_path os s filetype = Ok p ->
  expanduser os (Path s) = Ok p
  /\ match path_root (Path s), path_tail (Path s) with
     | [], (c :: name) :: rest =>
         if c =? ch "~" then
           exists userhome : pystr,
             userhome_of os name = Some userhome
             /\ p = from_parts (home_string userhome :: rest)
         else p = Path s
     | _, _ => p = Path s
     end.
Proof.
  intros H. apply valid_path_Ok_expanduser in H as [E _].
  split; [exact E|].
  pose proof (Path_tail_no_sep s) as Hsep.
  unfold expanduser in E.
  destruct (path_root (Path s)) as [|r root]; [|congruence].
  destruct (path_tail (Path s)) as [|[|c name] rest]; [congruence | | ].
  - change (startswith [] (py "~")) with false in E. congruence.
  - apply Forall_cons in Hsep as [Hname _]. apply Forall_cons in Hname as [_ Hname].
    change (startswith (c :: name) (py "~"))
      with ((c =? ch "~") && startswith name []) in E.
    rewrite startswith_nil, andb_true_r in E.
    destruct (N.eqb_spec c (ch "~")) as [->|_]; [|congruence].
    rewrite (posixpath_expanduser_component os name Hname) in E.
    destruct (fs_convert name) as [[]|e]; [|discriminate E].
    destruct (userhome_of os name) as [userhome|]; cbn [mbind result_bind] in E.
    + exists userhome. split; [reflexivity|].
      destruct (startswith (home_string userhome) (py "~")); congruence.
    + change (startswith (ch "~" :: name) (py "~"))
        with ((ch "~" =? ch "~") && startswith name []) in E.
      rewrite startswith_nil in E. discriminate E.
Qed.

Lemma valid_path_returns_expansion_witness :
  expanduser sample_os (Path (py "~/../bob//notes"))
  = Ok (Path (py "/home/alice/../bob/notes"))
  /\ match path_root (Path (py "~/../bob//notes")),
           path_tail (Path (py "~/../bob//notes")) with
     | [], (c :: name) :: rest =>
         if c =? ch "~" then
           exists userhome : pystr,
             userhome_of sample_os name = Some userhome
             /\ Path (py "/home/alice/../bob/notes")
                = from_parts (home_string userhome :: rest)
         else Path (py "/home/alice/../bob/notes") = Path (py "~/../bob//notes")
     | _, _ => Path (py "/home/alice/../bob/notes") = Path (py "~/../bob//notes")
     end.
Proof.
  apply (valid_path_returns_expansion sample_os (py "~/../bob//notes") (Some FILE)).
  vm_compute. reflexivity.
Defined.

(** C10, as stated, fails: the [RuntimeError] raised for an unknown home
    carries a message and no path, and there is no expanded path to carry. *)
Lemma valid_path_error_path_counterexample :
  ~ (forall (os : os_state) (s : pystr) (filetype : option FileType) (e : exception),
        valid_path os s filetype = Raise e ->
        exists p, expanduser os (Path s) = Ok p /\ exception_path e = Some p).
Proof.
  intros Hclaim.
  destruct (Hclaim sample_os (py "~carol/notes") None
              (RuntimeError (py "Could not determine home directory.")) eq_refl)
    as [p [_ H]].
  discriminate H.
Qed.

(** C10, amended: whenever [valid_path] raises after the expansion has
    succeeded, the exception is either the error of the kind, which carries
    the expanded path and not the path of the raw input, or the [OSError]
    of an [os.stat] that [pathlib] does not ignore, whose file name is the
    expanded path written out; when the expansion itself fails, the
    exception is its [RuntimeError] or [ValueError], which carries no
    path. *)
Theorem valid_path_error_carries_expanded_path
    (os : os_state) (s : pystr) (filetype : option FileType) (e : exception) :
  valid_path os s filetype = Raise e ->
  (exists p : PosixPath,
      expanduser os (Path s) = Ok p
      /\ ((e = not_exists_error (default FILE_OR_DIR filetype) p
           /\ exception_path e = Some p)
          \/ (exists errno,
                 e = OSError errno (str p) /\ _ignore_error errno = false)))
  \/ (expanduser os (Path s) = Raise e
      /\ exception_path e = None
      /\ (e = RuntimeError (py "Could not determine home directory.")
          \/ is_ValueError e = true)).
Proof.
  rewrite valid_path_unfold. intros H.
  destruct (expanduser os (Path s)) as [p|e'] eqn:E.
  - left. exists p. split; [reflexivity|].
    destruct (kind_predicate os (default FILE_OR_DIR filetype) p) as [[]|e'] eqn:K;
      [discriminate H | left | right]; injection H as <-.
    + split; [reflexivity|]. destruct (default FILE_OR_DIR filetype); reflexivity.
    + apply kind_predicate_raises, stat_error_stat in K as [_ K]. exact K.
  - right. injection H as <-. split; [reflexivity|].
    pose proof (expanduser_raises os _ _ E) as He.
    split; [|exact He].
    destruct He as [-> | He]; [reflexivity|].
    destruct e'; try discriminate He; reflexivity.
Qed.

Lemma valid_path_error_carries_expanded_path_witness :
  (exists p : PosixPath,
      expanduser sample_os (Path (py "~/missing")) = Ok p
      /\ ((NoSuchFileOrDirectoryError (Path (py "/home/alice/missing"))
           = not_exists_error (default FILE_OR_DIR None) p
           /\ exception_path
                (NoSuchFileOrDirectoryError (Path (py "/home/alice/missing")))
              = Some p)
          \/ (exists errno,
                 NoSuchFileOrDirectoryError (Path (py "/home/alice/missing"))
                 = OSError errno (str p) /\ _ignore_error errno = false)))
  \/ (expanduser sample_os (Path (py "~/missing"))
      = Raise (NoSuchFileOrDirectoryError (Path (py "/home/alice/missing")))
      /\ exception_path (NoSuchFileOrDirectoryError (Path (py "/home/alice/missing")))
         = None
      /\ (NoSuchFileOrDirectoryError (Path (py "/home/alice/missing"))
          = RuntimeError (py "Could not determine home directory.")
          \/ is_ValueError
               (NoSuchFileOrDirectoryError (Path (py "/home/alice/missing")))
             = true)).
Proof.
  apply (valid_path_error_carries_expanded_path sample_os (py "~/missing") None).
  vm_compute. reflexivity.
Defined.

(** ** The examples of the docstrings, on the sample machine *)

Example valid_path_etc :
  valid_path sample_os (py "/etc") None = Ok (Path (py "/etc")).
Proof. vm_compute. reflexivity. Qed.

Example valid_path_invalid :
  valid_path sample_os (py "/etc/some-invalid-path") None
  = Raise (NoSuchFileOrDirectoryError (Path (py "/etc/some-invalid-path"))).
Proof. vm_compute. reflexivity. Qed.

Example valid_path_etc_as_file :
  valid_path sample_os (py "/etc") (Some FILE) = Raise (FileNotFoundError (Path (py "/etc"))).
Proof. vm_compute. reflexivity. Qed.

Example valid_path_passwd_as_file :
  valid_path sample_os (py "/etc/passwd") (Some FILE) = Ok (Path (py "/etc/passwd")).
Proof. vm_compute. reflexivity. Qed.

Example valid_path_passwd_as_dir :
  valid_path sample_os (py "/etc/passwd") (Some DIR)
  = Raise (NotADirectoryError (Path (py "/etc/passwd"))).
Proof. vm_compute. reflexivity. Qed.

Example valid_path_etc_as_dir :
  valid_path sample_os (py "/etc") (Some DIR) = Ok (Path (py "/etc")).
Proof. vm_compute. reflexivity. Qed.

(** A relative name comes back relative, and a device is neither a file nor
    a directory. *)
Example valid_path_relative :
  valid_path sample_os (py "./notes") (Some FILE) = Ok (mkPath [] [py "notes"]).
Proof. vm_compute. reflexivity. Qed.

Example valid_path_device :
  valid_path sample_os (py "/dev/null") None = Ok (Path (py "/dev/null"))
  /\ valid_path sample_os (py "/dev/null") (Some FILE)
     = Raise (FileNotFoundError (Path (py "/dev/null")))
  /\ valid_path sample_os (py "/dev/null") (Some DIR)
     = Raise (NotADirectoryError (Path (py "/dev/null"))).
Proof. vm_compute. repeat split. Qed.

(** [alice] is the invoking user; what she gets for [~bob/notes] lies in the
    home of [bob], and what she gets for [~carol/notes] is the error of the
    expansion. *)
Example valid_path_other_user :
  userhome_of sample_os [] = Some (py "/home/alice")
  /\ valid_path sample_os (py "~bob/notes") (Some FILE) = Ok (Path (py "/home/bob/notes"))
  /\ valid_path sample_os (py "~carol/notes") (Some FILE)
     = Raise (RuntimeError (py "Could not determine home directory.")).
Proof. vm_compute. repeat split. Qed.

(** The error names the expanded path, which is not the path of the input. *)
Example valid_path_error_not_raw :
  valid_path sample_os (py "~/missing") None
  = Raise (NoSuchFileOrDirectoryError (mkPath (py "/") [py "home"; py "alice"; py "missing"]))
  /\ Path (py "~/missing") = mkPath [] [py "~"; py "missing"].
Proof. vm_compute. split; reflexivity. Qed.

Example get_valid_filename_doc (ucd_isalnum : N -> bool) :
  get_valid_filename ucd_isalnum (py "a|string\go/es||here") = Ok (py "a_string_go_es__here")
  /\ get_valid_filename ucd_isalnum (py "strin***g") = Ok (py "strin___g").
Proof. rewrite !get_valid_filename_unfold. split; reflexivity. Qed.

Example get_valid_filename_of_number :
  get_valid_filename latin1_isalnum 5678 = Ok (py "5678").
Proof. vm_compute. reflexivity. Qed.

Example get_valid_filename_of_path :
  get_valid_filename latin1_isalnum (Path (py "/etc//passwd")) = Ok (py "_etc_passwd").
Proof. vm_compute. reflexivity. Qed.

(** * Further properties *)

(** ** Stripping *)

Lemma lstrip_app_space (ws s : pystr) :
  Forall (fun c => isspace c = true) ws -> lstrip (ws ++ s) = lstrip s.
Proof.
  induction 1 as [|c ws Hc _ IH]; simpl; [reflexivity|]. rewrite Hc. exact IH.
Qed.

Lemma rstrip_app_space (s ws : pystr) :
  Forall (fun c => isspace c = true) ws -> rstrip (s ++ ws) = rstrip s.
Proof.
  intros H. unfold rstrip. rewrite rev_app_distr, lstrip_app_space; [reflexivity|].
  apply Forall_rev, H.
Qed.

Lemma lstrip_nil_iff (s : pystr) :
  lstrip s = [] <-> Forall (fun c => isspace c = true) s.
Proof.
  induction s as [|c s IH]; simpl.
  - split; [constructor | reflexivity].
  - destruct (isspace c) eqn:E.
    + rewrite IH. split; [intros H; constructor; assumption|].
      intros H. apply Forall_cons in H as [_ H]. exact H.
    + split; [discriminate|]. intros H. apply Forall_cons in H as [H _]. congruence.
Qed.

Lemma rstrip_nil_iff (s : pystr) :
  rstrip s = [] <-> Forall (fun c => isspace c = true) s.
Proof.
  unfold rstrip. split.
  - intros H. apply (f_equal (@rev N)) in H. rewrite rev_involutive in H. simpl in H.
    apply lstrip_nil_iff, Forall_rev in H. rewrite rev_involutive in H. exact H.
  - intros H. apply Forall_rev, lstrip_nil_iff in H. rewrite H. reflexivity.
Qed.

Lemma strip_nil_iff (s : pystr) :
  strip s = [] <-> Forall (fun c => isspace c = true) s.
Proof.
  unfold strip. rewrite rstrip_nil_iff. split; intros H.
  - apply lstrip_nil_iff.
    pose proof (lstrip_idem s) as Hid. apply lstrip_fixed_iff in Hid.
    destruct (lstrip s) as [|c l]; [reflexivity|].
    apply Forall_cons in H as [H _]. congruence.
  - apply lstrip_nil_iff in H. rewrite H. constructor.
Qed.

(** Whitespace around a string does not change what is left of it. *)
Lemma strip_app_space (ws1 s ws2 : pystr) :
  Forall (fun c => isspace c = true) ws1 ->
  Forall (fun c => isspace c = true) ws2 ->
  strip (ws1 ++ s ++ ws2) = strip s.
Proof.
  intros H1 H2. unfold strip. rewrite (lstrip_app_space _ _ H1). clear H1.
  induction s as [|c s IH]; simpl.
  - apply lstrip_nil_iff in H2. rewrite H2. reflexivity.
  - destruct (isspace c); [exact IH|].
    change (c :: s ++ ws2) with ((c :: s) ++ ws2). apply rstrip_app_space, H2.
Qed.

(** A string that stripping does not shorten is not changed by it. *)
Lemma lstrip_same_length (s : pystr) :
  List.length (lstrip s) = List.length s -> lstrip s = s.
Proof.
  intros H. destruct (lstrip_suffix s) as [w Hw].
  apply (f_equal (@List.length N)) in Hw as Hl. rewrite length_app in Hl.
  destruct w as [|a w]; [symmetry; exact Hw | simpl in Hl; lia].
Qed.

Lemma strip_same_length (s : pystr) :
  List.length (strip s) = List.length s -> strip s = s.
Proof.
  intros H. pose proof (lstrip_length s) as Hl.
  pose proof (rstrip_length (lstrip s)) as Hr. unfold strip in *.
  assert (El : lstrip s = s) by (apply lstrip_same_length; lia).
  rewrite El in *. apply rstrip_fixed_iff, lstrip_same_length.
  unfold rstrip in H. rewrite length_rev in *. exact H.
Qed.

(** ** More on [get_valid_filename] *)

Lemma spec_allowed_iff (ucd_isalnum : N -> bool) (c : N) :
  spec_allowed ucd_isalnum c = true
  <-> (is_word ucd_isalnum false c = true \/ c = ch "-" \/ c = ch ".").
Proof.
  unfold spec_allowed, is_word.
  rewrite !orb_true_iff, !N.eqb_eq. tauto.
Qed.

Lemma get_valid_filename_map (ucd_isalnum : N -> bool) (s : pystr) :
  get_valid_filename ucd_isalnum s = Ok (map (sanitize_char ucd_isalnum) (strip s)).
Proof. rewrite get_valid_filename_unfold, sanitize_filename_spec_map. reflexivity. Qed.

(** X1: whitespace before and after the input does not change the
    result. *)
Theorem get_valid_filename_ignores_outer_space
    (ucd_isalnum : N -> bool) (ws1 s ws2 : pystr) :
  Forall (fun c => isspace c = true) ws1 ->
  Forall (fun c => isspace c = true) ws2 ->
  get_valid_filename ucd_isalnum (ws1 ++ s ++ ws2) = get_valid_filename ucd_isalnum s.
Proof.
  intros H1 H2. rewrite !get_valid_filename_map, (strip_app_space _ _ _ H1 H2).
  reflexivity.
Qed.

Lemma get_valid_filename_ignores_outer_space_witness :
  get_valid_filename latin1_isalnum ([0x09; 0x20] ++ py "my file.txt" ++ [0x0A; 0xA0])
  = get_valid_filename latin1_isalnum (py "my file.txt").
Proof.
  apply get_valid_filename_ignores_outer_space;
    repeat (constructor; [reflexivity|]); constructor.
Defined.

(** X2: the result is the empty string exactly when the input holds nothing
    but whitespace. *)
Theorem get_valid_filename_empty_iff (ucd_isalnum : N -> bool) (s : pystr) :
  get_valid_filename ucd_isalnum s = Ok [] <-> Forall (fun c => isspace c = true) s.
Proof.
  rewrite get_valid_filename_map, <- strip_nil_iff. split.
  - intros H. injection H as H. destruct (strip s); [reflexivity | discriminate H].
  - intros ->. reflexivity.
Qed.

(** X3: the inputs that come back unchanged are exactly those made of word
    characters, hyphens and periods that have no whitespace at either end. *)
Theorem get_valid_filename_fixed_iff (ucd_isalnum : N -> bool) (s : pystr) :
  get_valid_filename ucd_isalnum s = Ok s
  <-> (Forall (fun c => is_word ucd_isalnum false c = true
                        \/ c = ch "-" \/ c = ch ".") s
       /\ strip s = s).
Proof.
  rewrite get_valid_filename_map. split.
  - intros H. injection H as H.
    assert (Hs : strip s = s).
    { apply strip_same_length. rewrite <- H at 2. rewrite length_map. reflexivity. }
    split; [|exact Hs].
    rewrite <- H. apply Forall_map, Forall_forall. intros c _.
    apply spec_allowed_iff, sanitize_char_allowed.
  - intros [Hall Hs]. rewrite Hs. f_equal. clear Hs.
    induction Hall as [|c l Hc _ IH]; simpl; [reflexivity|].
    rewrite IH, (sanitize_char_fixed ucd_isalnum c); [reflexivity|].
    apply spec_allowed_iff, Hc.
Qed.

(** ** Parsing and printing paths *)

Lemma split_sep_one (x cur : pystr) :
  no_sep x -> split_sep cur x = [rev cur ++ x].
Proof.
  intros H. revert cur. induction H as [|c x Hc _ IH]; intros cur; simpl.
  - rewrite app_nil_r. reflexivity.
  - rewrite Hc, IH. simpl. rewrite <- app_assoc. reflexivity.
Qed.

Lemma split_sep_app_sep (x t cur : pystr) :
  no_sep x -> split_sep cur (x ++ ch "/" :: t) = (rev cur ++ x) :: split_sep [] t.
Proof.
  intros H. revert cur. induction H as [|c x Hc _ IH]; intros cur; simpl.
  - rewrite app_nil_r. reflexivity.
  - rewrite Hc, IH. simpl. rewrite <- app_assoc. reflexivity.
Qed.

Lemma splitroot_relative (s : pystr) :
  match s with [] => True | c :: _ => (c =? ch "/") = false end ->
  splitroot s = ([], s).
Proof. destruct s as [|c s]; simpl; [reflexivity|]. intros ->. reflexivity. Qed.

Lemma Path_unfold (s : pystr) :
  Path s = mkPath (fst (splitroot s)) (components (snd (splitroot s))).
Proof.
  unfold Path, from_parts, parse_parts.
  destruct (splitroot s) as [root rel]. simpl. rewrite app_nil_r. reflexivity.
Qed.

(** A string without separator is one component, or none when it is empty
    or a single period. *)
Lemma Path_no_sep (y : pystr) :
  no_sep y -> Path y = mkPath [] (if kept_component y then [y] else []).
Proof.
  intros H. rewrite Path_unfold, splitroot_relative.
  - simpl. unfold components. rewrite (split_sep_one y [] H). reflexivity.
  - destruct H as [|c y Hc _]; [exact I | exact Hc].
Qed.

Lemma leading_tilde_expanduser (os : os_state) (p : PosixPath) :
  leading_tilde p = false -> expanduser os p = Ok p.
Proof.
  unfold leading_tilde, expanduser.
  destruct (path_root p); [|reflexivity].
  destruct (path_tail p) as [|first rest]; [reflexivity|].
  intros ->. reflexivity.
Qed.

(** X4: the name that [get_valid_filename] returns is, as a path, a single
    relative component (none when it is empty or a period) that has nothing
    to expand: [valid_path] looks it up as it is, and returns it, raises the
    error of the kind on it, or passes on the [OSError] of [os.stat] for
    it; it never raises the error of the home expansion. *)
Theorem get_valid_filename_is_one_component
    (ucd_isalnum : N -> bool) (os : os_state) (filetype : option FileType)
    (A : Type) (StrA : Str A) (x : A) :
  exists y : pystr,
    get_valid_filename ucd_isalnum x = Ok y
    /\ Path y = mkPath [] (if kept_component y then [y] else [])
    /\ expanduser os (Path y) = Ok (Path y)
    /\ (valid_path os y filetype = Ok (Path y)
        \/ valid_path os y filetype
           = Raise (not_exists_error (default FILE_OR_DIR filetype) (Path y))
        \/ (exists errno,
               valid_path os y filetype = Raise (OSError errno (str (Path y)))
               /\ _ignore_error errno = false)).
Proof.
  exists (sanitize_filename_spec ucd_isalnum x).
  split; [apply get_valid_filename_unfold|].
  pose proof (sanitize_filename_spec_allowed ucd_isalnum x) as Hall.
  set (y := sanitize_filename_spec ucd_isalnum x) in *.
  assert (Hsep : no_sep y).
  { eapply Forall_impl; [exact Hall|]. intros c Hc. simpl in Hc.
    destruct (N.eqb_spec c (ch "/")) as [->|]; [discriminate Hc | reflexivity]. }
  assert (Hpath : Path y = mkPath [] (if kept_component y then [y] else []))
    by exact (Path_no_sep y Hsep).
  assert (Hexp : expanduser os (Path y) = Ok (Path y)).
  { apply leading_tilde_expanduser. rewrite Hpath. unfold leading_tilde. simpl.
    destruct (kept_component y); [|reflexivity].
    destruct Hall as [|c l Hc _]; [reflexivity|].
    change (startswith (c :: l) (py "~")) with ((c =? ch "~") && startswith l []).
    destruct (N.eqb_spec c (ch "~")) as [->|]; [discriminate Hc | reflexivity]. }
  split; [exact Hpath|]. split; [exact Hexp|].
  exact (valid_path_expanded os y filetype (Path y) Hexp).
Qed.

(** ** One path, several kinds *)

Lemma stat_Some_no_error (os : os_state) (p : PosixPath) (t : file_type) :
  stat os p = Some t -> stat_error os p = None.
Proof.
  unfold stat, stat_error. destruct (Path_stat os p); [reflexivity | discriminate].
Qed.

(** What the call gives when the expansion succeeds and [os.stat] raises
    nothing that goes through. *)
Lemma valid_path_of_expansion (os : os_state) (s : pystr) (filetype : option FileType)
    (p : PosixPath) :
  expanduser os (Path s) = Ok p ->
  stat_error os p = None ->
  valid_path os s filetype
  = if match stat os p with
       | Some t => kind_holds (default FILE_OR_DIR filetype) t
       | None => false
       end
    then Ok p
    else Raise (not_exists_error (default FILE_OR_DIR filetype) p).
Proof.
  intros H E. rewrite valid_path_unfold, H, (kind_predicate_no_error os _ p E).
  destruct (stat os p) as [t|]; [|reflexivity].
  destruct (kind_holds _ t); reflexivity.
Qed.

(** X5: a path accepted as a file, or as a directory, is accepted when no
    kind is asked for, and is refused as the other of the two, with the
    error of that kind on the same path. *)
Theorem valid_path_file_xor_dir (os : os_state) (s : pystr) (p : PosixPath) :
  (valid_path os s (Some FILE) = Ok p ->
   valid_path os s None = Ok p
   /\ valid_path os s (Some DIR) = Raise (NotADirectoryError p))
  /\ (valid_path os s (Some DIR) = Ok p ->
      valid_path os s None = Ok p
      /\ valid_path os s (Some FILE) = Raise (FileNotFoundError p)).
Proof.
  split; intros H; apply valid_path_Ok_expanduser in H as [Hexp Hkind];
    apply kind_predicate_Ok in Hkind as [Herr Hkind];
    rewrite !(valid_path_of_expansion os s _ p Hexp Herr); simpl in *;
    destruct (stat os p) as [[]|]; try discriminate Hkind; split; reflexivity.
Qed.

Lemma valid_path_file_xor_dir_witness :
  valid_path sample_os (py "/etc/passwd") None = Ok (Path (py "/etc/passwd"))
  /\ valid_path sample_os (py "/etc/passwd") (Some DIR)
     = Raise (NotADirectoryError (Path (py "/etc/passwd"))).
Proof.
  apply (proj1 (valid_path_file_xor_dir sample_os (py "/etc/passwd")
                  (Path (py "/etc/passwd")))).
  vm_compute. reflexivity.
Defined.

(** X6: an input refused when no kind is asked for is refused for every
    kind, each time with the error of the kind on the same path. *)
Theorem valid_path_missing_for_all_kinds (os : os_state) (s : pystr) (p : PosixPath) :
  valid_path os s None = Raise (NoSuchFileOrDirectoryError p) ->
  valid_path os s (Some FILE) = Raise (FileNotFoundError p)
  /\ valid_path os s (Some DIR) = Raise (NotADirectoryError p)
  /\ valid_path os s (Some FILE_OR_DIR) = Raise (NoSuchFileOrDirectoryError p).
Proof.
  intros H. rewrite valid_path_unfold in H.
  destruct (expanduser os (Path s)) as [q|e] eqn:Hexp.
  - destruct (kind_predicate os (default FILE_OR_DIR None) q) as [[]|e] eqn:Hq.
    + discriminate H.
    + injection H as ->. apply kind_predicate_Ok in Hq as [Herr Hq].
      rewrite !(valid_path_of_expansion os s _ p Hexp Herr). simpl in *.
      destruct (stat os p) as [t|]; [discriminate Hq | repeat split].
    + injection H as ->.
      apply kind_predicate_raises, stat_error_stat in Hq as [_ (errno & Hq & _)].
      discriminate Hq.
  - injection H as ->.
    apply expanduser_raises in Hexp as [Hexp | Hexp]; discriminate Hexp.
Qed.

Lemma valid_path_missing_for_all_kinds_witness :
  valid_path sample_os (py "~/missing") (Some FILE)
  = Raise (FileNotFoundError (Path (py "/home/alice/missing")))
  /\ valid_path sample_os (py "~/missing") (Some DIR)
     = Raise (NotADirectoryError (Path (py "/home/alice/missing")))
  /\ valid_path sample_os (py "~/missing") (Some FILE_OR_DIR)
     = Raise (NoSuchFileOrDirectoryError (Path (py "/home/alice/missing"))).
Proof.
  apply valid_path_missing_for_all_kinds. vm_compute. reflexivity.
Defined.

(** X7: [FILE_OR_DIR] is wider than [FILE] and [DIR] together: what exists
    without being a regular file or a directory (a device, a pipe, a socket)
    is accepted when no kind is asked for and refused for both kinds. *)
Theorem valid_path_neither_file_nor_dir
    (os : os_state) (s : pystr) (p : PosixPath) (t : file_type) :
  expanduser os (Path s) = Ok p ->
  stat os p = Some t -> t <> S_IFREG -> t <> S_IFDIR ->
  valid_path os s None = Ok p
  /\ valid_path os s (Some FILE) = Raise (FileNotFoundError p)
  /\ valid_path os s (Some DIR) = Raise (NotADirectoryError p).
Proof.
  intros Hexp Hstat Hreg Hdir.
  rewrite !(valid_path_of_expansion os s _ p Hexp (stat_Some_no_error os p t Hstat)).
  rewrite Hstat. simpl.
  destruct t; try contradiction; repeat split.
Qed.

Lemma valid_path_neither_file_nor_dir_witness :
  valid_path sample_os (py "/dev/null") None = Ok (Path (py "/dev/null"))
  /\ valid_path sample_os (py "/dev/null") (Some FILE)
     = Raise (FileNotFoundError (Path (py "/dev/null")))
  /\ valid_path sample_os (py "/dev/null") (Some DIR)
     = Raise (NotADirectoryError (Path (py "/dev/null"))).
Proof.
  apply (valid_path_neither_file_nor_dir sample_os (py "/dev/null")
           (Path (py "/dev/null")) S_IFCHR);
    [vm_compute; reflexivity | vm_compute; reflexivity | discriminate | discriminate].
Defined.

(** ** Paths keep their shape *)

Lemma components_wf (rel : pystr) : Forall wf_component (components rel).
Proof.
  unfold components.
  assert (H : Forall no_sep (split_sep [] rel)) by (apply split_sep_no_sep; constructor).
  rewrite Forall_forall in *. intros x Hx.
  apply list_elem_of_In, filter_In in Hx as [Hx Hkept].
  split; [apply H, list_elem_of_In, Hx | exact Hkept].
Qed.

Lemma splitroot_root (s : pystr) :
  fst (splitroot s) = [] \/ fst (splitroot s) = py "/" \/ fst (splitroot s) = py "//".
Proof.
  destruct s as [|c s]; simpl; [left; reflexivity|].
  destruct (c =? ch "/"); [|left; reflexivity].
  destruct (_ =? 2)%nat; simpl; [right; right | right; left]; reflexivity.
Qed.

Lemma parse_parts_wf (args : list pystr) :
  wf_path (mkPath (fst (parse_parts args)) (snd (parse_parts args))).
Proof.
  induction args as [|part rest IH]; simpl.
  - split; [left; reflexivity | constructor].
  - destruct (parse_parts rest) as [root' parsed']. destruct root' as [|r root'].
    + destruct IH as [_ IH]. simpl in IH.
      pose proof (splitroot_root part) as Hroot.
      destruct (splitroot part) as [root rel]. simpl in *.
      split; [exact Hroot|]. simpl. apply Forall_app. split; [apply components_wf | exact IH].
    + exact IH.
Qed.

Lemma from_parts_wf (args : list pystr) : wf_path (from_parts args).
Proof.
  unfold from_parts. pose proof (parse_parts_wf args) as H.
  destruct (parse_parts args). exact H.
Qed.

(** What [valid_path] returns or reports is a path in the shape that
    [Path] gives. *)
Lemma expanduser_wf (os : os_state) (s : pystr) (p : PosixPath) :
  expanduser os (Path s) = Ok p -> wf_path p.
Proof.
  unfold expanduser. intros H.
  assert (Hs : wf_path (Path s)) by apply from_parts_wf.
  destruct (path_root (Path s)); [|congruence].
  destruct (path_tail (Path s)) as [|first rest]; [congruence|].
  destruct (startswith first (py "~")); [|congruence].
  destruct (posixpath_expanduser os first) as [homedir|e]; [|discriminate H].
  cbn [mbind result_bind] in H.
  destruct (startswith homedir (py "~")); [discriminate H|].
  injection H as <-. apply from_parts_wf.
Qed.

(** ** Printing a path and parsing it again *)

Lemma wf_component_head (x : pystr) :
  wf_component x -> exists c x', x = c :: x' /\ (c =? ch "/") = false.
Proof.
  intros [Hsep Hkept]. destruct x as [|c x']; [discriminate Hkept|].
  exists c, x'. split; [reflexivity|]. apply Forall_cons in Hsep as [Hc _]. exact Hc.
Qed.

Lemma join_sep_head (parts : list pystr) :
  Forall wf_component parts ->
  match join_sep parts with
  | [] => parts = []
  | c :: _ => (c =? ch "/") = false
  end.
Proof.
  intros H. destruct H as [|x rest Hx _]; simpl; [reflexivity|].
  destruct (wf_component_head x Hx) as (c & x' & -> & Hc).
  destruct rest; simpl; exact Hc.
Qed.

Lemma split_sep_join (x : pystr) (rest : list pystr) :
  Forall wf_component (x :: rest) -> split_sep [] (join_sep (x :: rest)) = x :: rest.
Proof.
  revert x. induction rest as [|y rest IH]; intros x H.
  - apply Forall_cons in H as [[Hx _] _]. simpl. apply (split_sep_one x [] Hx).
  - apply Forall_cons in H as [[Hx _] H].
    change (join_sep (x :: y :: rest)) with (x ++ ch "/" :: join_sep (y :: rest)).
    rewrite (split_sep_app_sep x _ [] Hx), (IH y H). reflexivity.
Qed.

Lemma filter_kept (parts : list pystr) :
  Forall wf_component parts -> List.filter kept_component parts = parts.
Proof.
  induction 1 as [|x rest [_ Hx] _ IH]; simpl; [reflexivity|].
  rewrite Hx, IH. reflexivity.
Qed.

Lemma components_join (parts : list pystr) :
  Forall wf_component parts -> components (join_sep parts) = parts.
Proof.
  intros H. destruct parts as [|x rest]; [reflexivity|].
  unfold components. rewrite (split_sep_join x rest H). apply filter_kept, H.
Qed.

Lemma lstrip_sep_relative (s : pystr) :
  match s with [] => True | c :: _ => (c =? ch "/") = false end -> lstrip_sep s = s.
Proof. destruct s as [|c s]; simpl; [reflexivity|]. intros ->. reflexivity. Qed.

(** A parsed path, printed and parsed again, is the same path. *)
Lemma Path_path_str (p : PosixPath) : wf_path p -> Path (path_str p) = p.
Proof.
  destruct p as [root tail]. intros [Hroot Htail]. simpl in *.
  pose proof (join_sep_head tail Htail) as Hhead.
  pose proof (components_join tail Htail) as Hcomp.
  assert (Hrel : match join_sep tail with [] => True | c :: _ => (c =? ch "/") = false end)
    by (destruct (join_sep tail); [exact I | exact Hhead]).
  unfold path_str. simpl.
  destruct Hroot as [-> | [-> | ->]].
  - simpl. destruct (join_sep tail) as [|c j] eqn:J.
    + rewrite Hhead. reflexivity.
    + rewrite Path_unfold, (splitroot_relative (c :: j) Hhead). simpl.
      rewrite Hcomp. reflexivity.
  - change (py "/" ++ join_sep tail) with (ch "/" :: join_sep tail).
    rewrite Path_unfold. unfold splitroot. rewrite N.eqb_refl.
    change (lstrip_sep (ch "/" :: join_sep tail)) with
      (if ch "/" =? ch "/" then lstrip_sep (join_sep tail) else ch "/" :: join_sep tail).
    rewrite N.eqb_refl, (lstrip_sep_relative _ Hrel).
    replace (List.length (ch "/" :: join_sep tail) - List.length (join_sep tail))%nat
      with 1%nat by (simpl; lia).
    simpl. rewrite Hcomp. reflexivity.
  - change (py "//" ++ join_sep tail) with (ch "/" :: ch "/" :: join_sep tail).
    rewrite Path_unfold. unfold splitroot. rewrite N.eqb_refl.
    change (lstrip_sep (ch "/" :: ch "/" :: join_sep tail)) with
      (if ch "/" =? ch "/"
       then (if ch "/" =? ch "/" then lstrip_sep (join_sep tail)
             else ch "/" :: join_sep tail)
       else ch "/" :: ch "/" :: join_sep tail).
    rewrite !N.eqb_refl, (lstrip_sep_relative _ Hrel).
    replace (List.length (ch "/" :: ch "/" :: join_sep tail)
             - List.length (join_sep tail))%nat
      with 2%nat by (simpl; lia).
    simpl. rewrite Hcomp. reflexivity.
Qed.

(** X8: a path that [valid_path] returned, written out with [str] and given
    to [valid_path] again, is returned again, provided it does not itself
    begin with a tilde component (no absolute path does). *)
Theorem valid_path_again
    (os : os_state) (s : pystr) (filetype : option FileType) (p : PosixPath) :
  valid_path os s filetype = Ok p ->
  leading_tilde p = false ->
  valid_path os (str p) filetype = Ok p.
Proof.
  intros H Htilde. apply valid_path_Ok_expanduser in H as [Hexp Hkind].
  apply valid_path_Ok_expanduser. change (str p) with (path_str p).
  rewrite (Path_path_str p (expanduser_wf os s p Hexp)).
  split; [apply leading_tilde_expanduser, Htilde | exact Hkind].
Qed.

Lemma valid_path_again_witness :
  valid_path sample_os (str (Path (py "/home/bob/notes"))) (Some FILE)
  = Ok (Path (py "/home/bob/notes")).
Proof.
  apply (valid_path_again sample_os (py "~bob//notes/.")); vm_compute; reflexivity.
Defined.

(** ** Inputs without a tilde *)

Lemma kind_predicate_os_stat (os os' : os_state) (kind : FileType) (p : PosixPath) :
  os_stat os = os_stat os' -> kind_predicate os kind p = kind_predicate os' kind p.
Proof.
  intros H.
  unfold kind_predicate, is_file, is_dir, path_exists, Path_stat, os_stat_call.
  rewrite H. reflexivity.
Qed.

(** An input that starts with a separator has a root, hence no leading
    tilde. *)
Lemma leading_tilde_absolute (s : pystr) :
  leading_tilde (Path (ch "/" :: s)) = false.
Proof.
  rewrite Path_unfold. unfold leading_tilde, splitroot. rewrite N.eqb_refl.
  destruct (_ =? 2)%nat; reflexivity.
Qed.

(** X9: for an input whose parsed path does not begin with a tilde
    component, [valid_path] returns the parsed path, raises the error of the
    kind on it, or passes on the [OSError] of [os.stat] for it, and which
    of these depends on the file system only: neither [HOME] nor the
    password database is looked at. *)
Theorem valid_path_without_tilde
    (os os' : os_state) (s : pystr) (filetype : option FileType) :
  leading_tilde (Path s) = false ->
  os_stat os = os_stat os' ->
  valid_path os s filetype = valid_path os' s filetype
  /\ (valid_path os s filetype = Ok (Path s)
      \/ valid_path os s filetype
         = Raise (not_exists_error (default FILE_OR_DIR filetype) (Path s))
      \/ (exists errno,
             valid_path os s filetype = Raise (OSError errno (str (Path s)))
             /\ _ignore_error errno = false)).
Proof.
  intros Htilde Hstat. split.
  - rewrite !valid_path_unfold, !(leading_tilde_expanduser _ _ Htilde).
    rewrite (kind_predicate_os_stat os os' _ _ Hstat). reflexivity.
  - apply valid_path_expanded, leading_tilde_expanduser, Htilde.
Qed.

Lemma valid_path_without_tilde_witness :
  valid_path sample_os (py "/root/secret") (Some DIR)
  = valid_path homeless_os (py "/root/secret") (Some DIR)
  /\ (valid_path sample_os (py "/root/secret") (Some DIR)
      = Ok (Path (py "/root/secret"))
      \/ valid_path sample_os (py "/root/secret") (Some DIR)
         = Raise (not_exists_error (default FILE_OR_DIR (Some DIR))
                    (Path (py "/root/secret")))
      \/ (exists errno,
             valid_path sample_os (py "/root/secret") (Some DIR)
             = Raise (OSError errno (str (Path (py "/root/secret"))))
             /\ _ignore_error errno = false)).
Proof.
  apply valid_path_without_tilde; [apply leading_tilde_absolute | reflexivity].
Defined.

(** ** A separator at the end *)

Lemma split_sep_snoc_sep (s cur : pystr) :
  split_sep cur (s ++ [ch "/"]) = split_sep cur s ++ [[]].
Proof.
  revert cur. induction s as [|c s IH]; intros cur; simpl.
  - reflexivity.
  - destruct (c =? ch "/"); rewrite IH; reflexivity.
Qed.

Lemma components_snoc_sep (rel : pystr) :
  components (rel ++ [ch "/"]) = components rel.
Proof.
  unfold components. rewrite split_sep_snoc_sep, List.filter_app.
  simpl. apply app_nil_r.
Qed.

Lemma lstrip_sep_app (s t : pystr) :
  Exists (fun c => (c =? ch "/") = false) s ->
  lstrip_sep (s ++ t) = lstrip_sep s ++ t.
Proof.
  induction s as [|c s IH]; intros H; [apply Exists_nil in H; contradiction|].
  simpl. destruct (c =? ch "/") eqn:E; [|reflexivity].
  apply IH. apply Exists_cons in H as [H | H]; [congruence | exact H].
Qed.

Lemma lstrip_sep_length (s : pystr) :
  (List.length (lstrip_sep s) <= List.length s)%nat.
Proof.
  induction s as [|c s IH]; simpl; [lia|]. destruct (c =? ch "/"); simpl; lia.
Qed.

Lemma splitroot_snoc_sep (s : pystr) :
  Exists (fun c => (c =? ch "/") = false) s ->
  splitroot (s ++ [ch "/"]) = (fst (splitroot s), snd (splitroot s) ++ [ch "/"]).
Proof.
  intros H. destruct s as [|c s]; [apply Exists_nil in H; contradiction|].
  pose proof (lstrip_sep_app (c :: s) [ch "/"] H) as Happ.
  pose proof (lstrip_sep_length (c :: s)) as Hlen.
  unfold splitroot. cbn [app]. cbn [app] in Happ.
  destruct (c =? ch "/") eqn:E; [|reflexivity].
  cbv zeta. rewrite Happ, length_app.
  replace (List.length (c :: s ++ [ch "/"])
           - (List.length (lstrip_sep (c :: s)) + List.length [ch "/"]))%nat
    with (List.length (c :: s) - List.length (lstrip_sep (c :: s)))%nat
    by (cbn [List.length]; rewrite length_app; cbn [List.length] in *; lia).
  destruct (_ =? 2)%nat; reflexivity.
Qed.

Lemma Path_snoc_sep (s : pystr) :
  Exists (fun c => (c =? ch "/") = false) s -> Path (s ++ [ch "/"]) = Path s.
Proof.
  intros H. rewrite !Path_unfold, (splitroot_snoc_sep s H). simpl.
  rewrite components_snoc_sep. reflexivity.
Qed.

(** X10: a separator at the end of the input is not seen: unless the input
    consists of separators only, [valid_path] does with [s/] what it does
    with [s], whatever the kind. *)
Theorem valid_path_trailing_sep
    (os : os_state) (s : pystr) (filetype : option FileType) :
  Exists (fun c => (c =? ch "/") = false) s ->
  valid_path os (s ++ py "/") filetype = valid_path os s filetype.
Proof.
  intros H. rewrite !valid_path_unfold.
  change (py "/") with [ch "/"]. rewrite (Path_snoc_sep s H). reflexivity.
Qed.

Lemma valid_path_trailing_sep_witness :
  valid_path sample_os (py "/etc/passwd" ++ py "/") (Some FILE)
  = valid_path sample_os (py "/etc/passwd") (Some FILE).
Proof.
  apply valid_path_trailing_sep. apply Exists_cons_tl, Exists_cons_hd. reflexivity.
Defined.

(** A regular file passes as a file with a separator after its name. *)
Example valid_path_file_with_trailing_sep :
  valid_path sample_os (py "/etc/passwd/") (Some FILE) = Ok (Path (py "/etc/passwd")).
Proof. vm_compute. reflexivity. Qed.

(** ** When the home expansion fails *)

Lemma startswith_tilde (x : pystr) :
  startswith x (py "~") = true <-> exists name, x = ch "~" :: name.
Proof.
  destruct x as [|c x].
  - split; [discriminate | intros [name H]; discriminate H].
  - change (startswith (c :: x) (py "~")) with ((c =? ch "~") && startswith x []).
    rewrite startswith_nil, andb_true_r, N.eqb_eq. split.
    + intros ->. exists x. reflexivity.
    + intros [name [= -> _]]. reflexivity.
Qed.

(** The expansion of a parsed input that begins with a tilde component. *)
Lemma expanduser_tilde (os : os_state) (s name : pystr) (rest : list pystr) :
  path_root (Path s) = [] ->
  path_tail (Path s) = (ch "~" :: name) :: rest ->
  expanduser os (Path s)
  = match fs_convert name with
    | Raise e => Raise e
    | Ok _ =>
        match userhome_of os name with
        | None => Raise (RuntimeError (py "Could not determine home directory."))
        | Some userhome =>
            if startswith (home_string userhome) (py "~")
            then Raise (RuntimeError (py "Could not determine home directory."))
            else Ok (from_parts (home_string userhome :: rest))
        end
    end.
Proof.
  intros Hroot Htail. pose proof (Path_tail_no_sep s) as Hsep.
  unfold expanduser. rewrite Hroot, Htail. rewrite Htail in Hsep.
  apply Forall_cons in Hsep as [Hname _]. apply Forall_cons in Hname as [_ Hname].
  assert (Hs : startswith (ch "~" :: name) (py "~") = true)
    by (apply startswith_tilde; eexists; reflexivity).
  rewrite Hs, (posixpath_expanduser_component os name Hname).
  destruct (fs_convert name) as [[]|e]; [|reflexivity].
  destruct (userhome_of os name); cbn [mbind result_bind]; [reflexivity|].
  rewrite Hs. reflexivity.
Qed.

Lemma leading_tilde_iff (p : PosixPath) :
  leading_tilde p = true
  <-> exists name rest, path_root p = [] /\ path_tail p = (ch "~" :: name) :: rest.
Proof.
  unfold leading_tilde. destruct (path_root p) as [|r root].
  - destruct (path_tail p) as [|first rest].
    + split; [discriminate | intros (name & rest & _ & H); discriminate H].
    + rewrite startswith_tilde. split.
      * intros [name ->]. exists name, rest. split; reflexivity.
      * intros (name & rest' & _ & [= -> _]). exists name. reflexivity.
  - split; [discriminate | intros (name & rest & H & _); discriminate H].
Qed.

(** An exception that is neither an error of a kind nor an [OSError] comes
    from the expansion. *)
Lemma valid_path_raises_expansion
    (os : os_state) (s : pystr) (filetype : option FileType) (e : exception) :
  exception_path e = None ->
  (forall errno filename, e <> OSError errno filename) ->
  valid_path os s filetype = Raise e <-> expanduser os (Path s) = Raise e.
Proof.
  intros Hpath Hos. rewrite valid_path_unfold.
  destruct (expanduser os (Path s)) as [p|e']; [|reflexivity].
  split; [|discriminate].
  destruct (kind_predicate os (default FILE_OR_DIR filetype) p) as [[]|e'] eqn:K;
    [discriminate | |]; intros [= <-].
  - destruct (default FILE_OR_DIR filetype); discriminate Hpath.
  - apply kind_predicate_raises, stat_error_stat in K as [_ (errno & -> & _)].
    exfalso. exact (Hos _ _ eq_refl).
Qed.

(** X11: the two ways in which the home expansion makes [valid_path] fail,
    whatever the kind and the file system.  It raises [RuntimeError]
    exactly when the parsed input has no root and begins with a component
    [~name] (the name may be empty) whose name can be looked up and for
    which no home directory is known, or one that itself begins with a
    tilde.  It raises a [ValueError] exactly when the name of such a
    component cannot be looked up (it holds a NUL or a code point that the
    file system encoding lacks). *)
Theorem valid_path_runtime_error_iff
    (os : os_state) (s : pystr) (filetype : option FileType) :
  ((exists msg, valid_path os s filetype = Raise (RuntimeError msg))
   <-> (exists name rest,
           path_root (Path s) = []
           /\ path_tail (Path s) = (ch "~" :: name) :: rest
           /\ fs_convert name = Ok tt
           /\ match userhome_of os name with
              | None => True
              | Some userhome => startswith (home_string userhome) (py "~") = true
              end))
  /\ ((exists e, valid_path os s filetype = Raise e /\ is_ValueError e = true)
      <-> (exists name rest e,
              path_root (Path s) = []
              /\ path_tail (Path s) = (ch "~" :: name) :: rest
              /\ fs_convert name = Raise e)).
Proof.
  split; split.
  - intros [msg H].
    apply valid_path_raises_expansion in H; [|reflexivity | discriminate].
    destruct (leading_tilde (Path s)) eqn:Htilde;
      [|rewrite (leading_tilde_expanduser os _ Htilde) in H; discriminate H].
    apply leading_tilde_iff in Htilde as (name & rest & Hroot & Htail).
    exists name, rest. split; [exact Hroot|]. split; [exact Htail|].
    rewrite (expanduser_tilde os s name rest Hroot Htail) in H.
    destruct (fs_convert name) as [[]|e] eqn:Hconv.
    + split; [reflexivity|].
      destruct (userhome_of os name) as [userhome|]; [|exact I].
      destruct (startswith (home_string userhome) (py "~")); [reflexivity|].
      discriminate H.
    + injection H as ->. apply fs_convert_raises in Hconv. discriminate Hconv.
  - intros (name & rest & Hroot & Htail & Hconv & Hhome).
    exists (py "Could not determine home directory.").
    apply valid_path_raises_expansion; [reflexivity | discriminate|].
    rewrite (expanduser_tilde os s name rest Hroot Htail), Hconv.
    destruct (userhome_of os name) as [userhome|]; [|reflexivity].
    rewrite Hhome. reflexivity.
  - intros (e & H & He).
    apply valid_path_raises_expansion in H;
      [| destruct e; try discriminate He; reflexivity
       | intros errno filename ->; discriminate He].
    destruct (leading_tilde (Path s)) eqn:Htilde;
      [|rewrite (leading_tilde_expanduser os _ Htilde) in H; discriminate H].
    apply leading_tilde_iff in Htilde as (name & rest & Hroot & Htail).
    exists name, rest, e. split; [exact Hroot|]. split; [exact Htail|].
    rewrite (expanduser_tilde os s name rest Hroot Htail) in H.
    destruct (fs_convert name) as [[]|e'] eqn:Hconv; [|congruence].
    destruct (userhome_of os name) as [userhome|];
      [destruct (startswith (home_string userhome) (py "~"))|];
      try discriminate H; injection H as <-; discriminate He.
  - intros (name & rest & e & Hroot & Htail & Hconv).
    exists e. pose proof (fs_convert_raises _ _ Hconv) as He.
    split; [|exact He].
    apply valid_path_raises_expansion;
      [ destruct e; try discriminate He; reflexivity
      | intros errno filename ->; discriminate He |].
    rewrite (expanduser_tilde os s name rest Hroot Htail), Hconv. reflexivity.
Qed.

(** ** The errors that go through, on the sample machine *)

(** A name that the kernel refuses as too long, with and without a root,
    and a file in a directory that may not be searched. *)
Example valid_path_name_too_long :
  valid_path sample_os long_name None = Raise (OSError ENAMETOOLONG long_name)
  /\ valid_path sample_os (ch "/" :: long_name) (Some FILE)
     = Raise (OSError ENAMETOOLONG (ch "/" :: long_name))
  /\ valid_path sample_os (py "/root/secret") (Some DIR)
     = Raise (OSError EACCES (py "/root/secret")).
Proof. vm_compute. repeat split. Qed.

(** A component under a regular file is just not there. *)
Example valid_path_under_a_file :
  valid_path sample_os (py "/etc/passwd/x") None
  = Raise (NoSuchFileOrDirectoryError (Path (py "/etc/passwd/x"))).
Proof. vm_compute. reflexivity. Qed.

(** A user name with a NUL, or with a lone surrogate, is refused by the
    password database before anything is looked up; a path with one is
    simply not found. *)
Example valid_path_unencodable :
  valid_path sample_os (ch "~" :: ch "a" :: 0 :: py "b") None
  = Raise (ValueError (py "embedded null byte"))
  /\ valid_path sample_os (ch "~" :: 0xD800 :: py "/x") None
     = Raise (UnicodeEncodeError [0xD800] 0)
  /\ valid_path sample_os (ch "a" :: 0 :: py "b") None
     = Raise (NoSuchFileOrDirectoryError (mkPath [] [ch "a" :: 0 :: py "b"]))
  /\ valid_path sample_os [0xD800] (Some FILE)
     = Raise (FileNotFoundError (mkPath [] [[0xD800]])).
Proof. vm_compute. repeat split. Qed.

(** The sanitiser returns the long name as it is, and [valid_path] raises
    the error of [os.stat] for it. *)
Example get_valid_filename_long_name :
  get_valid_filename latin1_isalnum long_name = Ok long_name
  /\ valid_path sample_os long_name (Some FILE) = Raise (OSError ENAMETOOLONG long_name).
Proof. vm_compute. split; reflexivity. Qed.
